(** * Social_network front end: post reactions, feed collections, upload staging

    A shallow embedding of the React components of the repository:
    - [PostCard]  (components/PostCard.jsx): the per-card reaction state and
      the two click handlers [handleLike] and [handleDislike];
    - [Signup]    (components/Signup.jsx): [handleFileChange];
    - [Profile]   (components/Profile.jsx): [handlePictureChange];
    - [Dashboard] (pages/Dashboard.jsx): the [posts] / [userPosts] state, the
      asynchronous handlers and the two lists of cards they render;
    - [Regex], [SignupForm], [Login], [ProfileEdit]: the validators and the
      submit handlers of the forms;
    - [Api] (utils/api.js) and [App] (App.jsx): the interceptors, the request
      bodies and the session kept in localStorage.

    Conventions.  A JavaScript string is a list of UTF-16 code units.  Numbers
    that the code only uses as integers (ids, counters, byte sizes) are [Z].
    A [useState] cell is a record field; a handler is a function from the
    state of the render it was created in to the next state.  An [async]
    handler is cut at its [await]: the part before it registers a pending
    call that remembers what the closure captured, and the part after it runs
    when that call is settled. *)

From Stdlib Require Import ZArith List String Ascii Bool Lia.
Import ListNotations.
Local Open Scope Z_scope.

(** ** JavaScript strings *)

Definition jsstring := list Z.

(** A string literal of the source, as code units. *)
Definition lit (s : string) : jsstring :=
  map (fun a => Z.of_N (N_of_ascii a)) (list_ascii_of_string s).

Definition jsstring_eqb (a b : jsstring) : bool :=
  if list_eq_dec Z.eq_dec a b then true else false.

(** [Array.prototype.includes] on an array of strings. *)
Definition includes (l : list jsstring) (s : jsstring) : bool :=
  existsb (jsstring_eqb s) l.

(** WhiteSpace and LineTerminator code units, the ones [trim] strips. *)
Definition is_js_space (c : Z) : bool :=
  (9 <=? c) && (c <=? 13)
  || (c =? 32) || (c =? 160) || (c =? 5760)
  || (8192 <=? c) && (c <=? 8202)
  || (c =? 8232) || (c =? 8233) || (c =? 8239) || (c =? 8287)
  || (c =? 12288) || (c =? 65279).

Fixpoint trimStart (s : jsstring) : jsstring :=
  match s with
  | c :: s' => if is_js_space c then trimStart s' else s
  | [] => []
  end.

Definition trim (s : jsstring) : jsstring :=
  rev (trimStart (rev (trimStart s))).

(** Truthiness of a string: the empty string is the only falsy one. *)
Definition truthy (s : jsstring) : bool :=
  match s with [] => false | _ :: _ => true end.

(** A message slot such as [createError]: a string, or [undefined]. *)
Inductive message :=
| Undefined
| Text (s : jsstring).

(** ** Posts as the backend serialises them *)

Record Post := mkPost {
  id : Z;
  author : Z;
  author_name : jsstring;
  author_picture : option jsstring;
  description : jsstring;
  image : option jsstring;
  created_at : jsstring;
  likes_count : Z;
  dislikes_count : Z;
  is_liked : bool;
  is_disliked : bool
}.

(** A [File] picked in an [<input type="file">]. *)
Record File := mkFile {
  name : jsstring;
  type : jsstring;
  size : Z
}.

(** ** components/PostCard.jsx *)

Module PostCard.

(** The four [useState] cells of one card. *)
Record State := mkState {
  isLiked : bool;
  isDisliked : bool;
  likesCount : Z;
  dislikesCount : Z
}.

(** [useState(post.is_liked)] and its three siblings, on mount. *)
Definition useState (post : Post) : State :=
  {| isLiked := is_liked post;
     isDisliked := is_disliked post;
     likesCount := likes_count post;
     dislikesCount := dislikes_count post |}.

(** What a handler passes up through the [onLike] / [onDislike] props. *)
Inductive Callback :=
| onLike (postId : Z) (shouldLike : bool)
| onDislike (postId : Z) (shouldDislike : bool).

Definition handleLike (post : Post) (s : State) : Callback * State :=
  if isLiked s then
    (onLike (id post) false,
     {| isLiked := false;
        isDisliked := isDisliked s;
        likesCount := likesCount s - 1;
        dislikesCount := dislikesCount s |})
  else
    (onLike (id post) true,
     {| isLiked := true;
        isDisliked := if isDisliked s then false else isDisliked s;
        likesCount := likesCount s + 1;
        dislikesCount :=
          if isDisliked s then dislikesCount s - 1 else dislikesCount s |}).

Definition handleDislike (post : Post) (s : State) : Callback * State :=
  if isDisliked s then
    (onDislike (id post) false,
     {| isLiked := isLiked s;
        isDisliked := false;
        likesCount := likesCount s;
        dislikesCount := dislikesCount s - 1 |})
  else
    (onDislike (id post) true,
     {| isLiked := if isLiked s then false else isLiked s;
        isDisliked := true;
        likesCount := if isLiked s then likesCount s - 1 else likesCount s;
        dislikesCount := dislikesCount s + 1 |}).

(** The two buttons of the card footer. *)
Inductive Button := Like | Dislike.

Definition click (b : Button) (post : Post) (s : State) : Callback * State :=
  match b with
  | Like => handleLike post s
  | Dislike => handleDislike post s
  end.

(** The states a card goes through under a sequence of clicks, the
    starting state included. *)
Fixpoint states (post : Post) (bs : list Button) (s : State) : list State :=
  match bs with
  | [] => [s]
  | b :: bs' => s :: states post bs' (snd (click b post s))
  end.

(** The state a sequence of clicks ends in. *)
Definition final (post : Post) (bs : list Button) (s : State) : State :=
  fold_left (fun s b => snd (click b post s)) bs s.

(** "Not both flags at once". *)
Definition exclusive (s : State) : Prop :=
  (isLiked s && isDisliked s)%bool = false.

End PostCard.

(** ** Error objects

    [errors] is a plain object used as a map from field name to message.
    [assign k v o] is the object literal [{...o, [k]: v}]: an existing key keeps
    its place and takes the new value, a new key goes last. *)

Definition object := list (jsstring * jsstring).

Fixpoint assign (k v : jsstring) (o : object) : object :=
  match o with
  | [] => [(k, v)]
  | (k', v') :: o' =>
      if jsstring_eqb k k' then (k, v) :: o' else (k', v') :: assign k v o'
  end.

Fixpoint get (k : jsstring) (o : object) : option jsstring :=
  match o with
  | [] => None
  | (k', v') :: o' => if jsstring_eqb k k' then Some v' else get k o'
  end.

(** The media types all three file handlers list in [validTypes]. *)
Definition validTypes : list jsstring :=
  [lit "image/jpeg"; lit "image/png"; lit "image/gif"].

(** ** components/Signup.jsx *)

Module Signup.

Record FormData := mkFormData {
  email : jsstring;
  first_name : jsstring;
  last_name : jsstring;
  date_of_birth : jsstring;
  password : jsstring;
  password2 : jsstring;
  profile_picture : option File
}.

Record State := mkState {
  formData : FormData;
  errors : object;
  loading : bool;
  successMessage : jsstring;
  previewImage : option jsstring
}.

Definition setErrors (f : object -> object) (s : State) : State :=
  {| formData := formData s; errors := f (errors s); loading := loading s;
     successMessage := successMessage s; previewImage := previewImage s |}.

Definition setFormData (f : FormData -> FormData) (s : State) : State :=
  {| formData := f (formData s); errors := errors s; loading := loading s;
     successMessage := successMessage s; previewImage := previewImage s |}.

Definition setPreviewImage (v : option jsstring) (s : State) : State :=
  {| formData := formData s; errors := errors s; loading := loading s;
     successMessage := successMessage s; previewImage := v |}.

Definition with_profile_picture (v : option File) (d : FormData) : FormData :=
  {| email := email d; first_name := first_name d; last_name := last_name d;
     date_of_birth := date_of_birth d; password := password d;
     password2 := password2 d; profile_picture := v |}.

(** [handleFileChange]: [file] is [e.target.files[0]], [None] when the
    picker was dismissed.  The second component is the file handed to
    [reader.readAsDataURL], if any. *)
Definition handleFileChange (file : option File) (s : State)
  : State * option File :=
  match file with
  | Some f =>
      if negb (includes validTypes (type f)) then
        (setErrors
           (assign (lit "profile_picture")
              (lit "Please upload a valid image file (JPG, PNG, GIF)")) s,
         None)
      else if size f >? 5 * 1024 * 1024 then
        (setErrors
           (assign (lit "profile_picture")
              (lit "File size must be less than 5MB")) s,
         None)
      else
        (setFormData (with_profile_picture (Some f)) s, Some f)
  | None => (s, None)
  end.

(** [reader.onloadend]. *)
Definition onloadend (result : option jsstring) (s : State) : State :=
  setPreviewImage result s.

End Signup.

(** ** components/Profile.jsx *)

Module Profile.

Record EditData := mkEditData {
  first_name : jsstring;
  last_name : jsstring;
  date_of_birth : jsstring;
  bio : jsstring;
  profile_picture : option File
}.

Record State := mkState {
  isEditing : bool;
  editData : EditData;
  errors : object;
  loading : bool;
  previewImage : option jsstring;
  successMessage : jsstring
}.

Definition setErrors (o : object) (s : State) : State :=
  {| isEditing := isEditing s; editData := editData s; errors := o;
     loading := loading s; previewImage := previewImage s;
     successMessage := successMessage s |}.

Definition setEditData (f : EditData -> EditData) (s : State) : State :=
  {| isEditing := isEditing s; editData := f (editData s);
     errors := errors s; loading := loading s;
     previewImage := previewImage s;
     successMessage := successMessage s |}.

Definition setPreviewImage (v : option jsstring) (s : State) : State :=
  {| isEditing := isEditing s; editData := editData s; errors := errors s;
     loading := loading s; previewImage := v;
     successMessage := successMessage s |}.

Definition with_profile_picture (v : option File) (d : EditData) : EditData :=
  {| first_name := first_name d; last_name := last_name d;
     date_of_birth := date_of_birth d; bio := bio d;
     profile_picture := v |}.

Definition handlePictureChange (file : option File) (s : State)
  : State * option File :=
  match file with
  | Some f =>
      if negb (includes validTypes (type f)) then
        (setErrors [(lit "profile_picture", lit "Invalid file type")] s,
         None)
      else if size f >? 5 * 1024 * 1024 then
        (setErrors
           [(lit "profile_picture", lit "File too large (max 5MB)")] s,
         None)
      else
        (setEditData (with_profile_picture (Some f)) s, Some f)
  | None => (s, None)
  end.

Definition onloadend (result : option jsstring) (s : State) : State :=
  setPreviewImage result s.

End Profile.

(** ** pages/Dashboard.jsx: state and handlers *)

Module Dashboard.

(** The [newPost] draft. *)
Record NewPost := mkNewPost {
  newPost_description : jsstring;
  newPost_image : option File
}.

Record State := mkState {
  posts : list Post;
  userPosts : list Post;
  loading : bool;
  error : jsstring;
  newPost : NewPost;
  isCreatingPost : bool;
  createError : message;
  previewImage : option jsstring
}.

(** The initial values of the eight [useState] calls. *)
Definition initial : State :=
  {| posts := []; userPosts := []; loading := true; error := lit "";
     newPost := mkNewPost (lit "") None; isCreatingPost := false;
     createError := Text (lit ""); previewImage := None |}.

Definition setPosts (v : list Post) (s : State) : State :=
  mkState v (userPosts s) (loading s) (error s) (newPost s)
          (isCreatingPost s) (createError s) (previewImage s).

Definition setUserPosts (v : list Post) (s : State) : State :=
  mkState (posts s) v (loading s) (error s) (newPost s)
          (isCreatingPost s) (createError s) (previewImage s).

Definition setLoading (v : bool) (s : State) : State :=
  mkState (posts s) (userPosts s) v (error s) (newPost s)
          (isCreatingPost s) (createError s) (previewImage s).

Definition setError (v : jsstring) (s : State) : State :=
  mkState (posts s) (userPosts s) (loading s) v (newPost s)
          (isCreatingPost s) (createError s) (previewImage s).

Definition setNewPost (f : NewPost -> NewPost) (s : State) : State :=
  mkState (posts s) (userPosts s) (loading s) (error s) (f (newPost s))
          (isCreatingPost s) (createError s) (previewImage s).

Definition setIsCreatingPost (v : bool) (s : State) : State :=
  mkState (posts s) (userPosts s) (loading s) (error s) (newPost s)
          v (createError s) (previewImage s).

Definition setCreateError (v : message) (s : State) : State :=
  mkState (posts s) (userPosts s) (loading s) (error s) (newPost s)
          (isCreatingPost s) v (previewImage s).

Definition setPreviewImage (v : option jsstring) (s : State) : State :=
  mkState (posts s) (userPosts s) (loading s) (error s) (newPost s)
          (isCreatingPost s) (createError s) v.

(** The calls of [postsAPI] a handler can be waiting on.  [createPost] and
    [deletePost] also carry the [posts] and [userPosts] their handler
    closed over: the code after the [await] reads those, not the state of
    the moment the call settles. *)
Inductive Pending :=
| getPosts
| createPost (postData : NewPost) (posts0 userPosts0 : list Post)
| deletePost (postId : Z) (posts0 userPosts0 : list Post)
| likePost (postId : Z)
| removeLike (postId : Z)
| dislikePost (postId : Z)
| removeDislike (postId : Z).

(** [response.data] of a fulfilled call. *)
Inductive Data :=
| posts_data (l : list Post)
| post_data (p : Post)
| no_data.

(** How a call settles.  A rejection carries
    [Object.values(err.response.data.errors)] when [errors] is there. *)
Inductive Reply :=
| Resolved (d : Data)
| Rejected (errors : option (list jsstring)).

Section WithUser.

(** [user.id], a prop of the component. *)
Variable user_id : Z.

(** [(post) => post.author === user.id] *)
Definition is_mine (post : Post) : bool := author post =? user_id.

(** [fetchPosts], up to the [await]. *)
Definition fetchPosts (s : State) : State * Pending :=
  (setError (lit "") (setLoading true s), getPosts).

Definition fetchPosts_then (l : list Post) (s : State) : State :=
  setLoading false (setUserPosts (filter is_mine l) (setPosts l s)).

Definition fetchPosts_catch (s : State) : State :=
  setLoading false (setError (lit "Failed to load posts. Please try again.") s).

(** [handlePostInputChange] for the one field that uses it, the
    [description] textarea. *)
Definition handlePostInputChange (value : jsstring) (s : State) : State :=
  setNewPost (fun prev => mkNewPost value (newPost_image prev)) s.

(** [handlePostImageChange]; the second component is the file handed to
    [reader.readAsDataURL]. *)
Definition handlePostImageChange (file : option File) (s : State)
  : State * option File :=
  match file with
  | Some f =>
      if negb (includes validTypes (type f)) then
        (setCreateError
           (Text (lit "Invalid image format. Use JPG, PNG, or GIF.")) s,
         None)
      else if size f >? 10 * 1024 * 1024 then
        (setCreateError (Text (lit "Image must be less than 10MB")) s, None)
      else
        (setNewPost (fun prev => mkNewPost (newPost_description prev) (Some f)) s,
         Some f)
  | None => (s, None)
  end.

Definition onloadend (result : option jsstring) (s : State) : State :=
  setPreviewImage result s.

(** The [onClick] of the remove-image button. *)
Definition removeImage (s : State) : State :=
  setNewPost (fun prev => mkNewPost (newPost_description prev) None)
             (setPreviewImage None s).

(** [handleCreatePost], up to the [await]: no call is made when the trimmed
    description is empty. *)
Definition handleCreatePost (s : State) : State * option Pending :=
  if negb (truthy (trim (newPost_description (newPost s)))) then
    (setCreateError (Text (lit "Post description is required")) s, None)
  else
    (setCreateError (Text (lit "")) (setIsCreatingPost true s),
     Some (createPost (newPost s) (posts s) (userPosts s))).

(** After the [await], on success.  [posts0] and [userPosts0] are the lists
    the handler closed over. *)
Definition handleCreatePost_then (post : Post) (posts0 userPosts0 : list Post)
    (s : State) : State :=
  let s1 := setPosts (post :: posts0) s in
  let s2 := if author post =? user_id
            then setUserPosts (post :: userPosts0) s1 else s1 in
  let s3 := setNewPost (fun _ => mkNewPost (lit "") None) s2 in
  let s4 := setPreviewImage None s3 in
  setIsCreatingPost false s4.

(** After the [await], on failure. *)
Definition handleCreatePost_catch (errors : option (list jsstring))
    (s : State) : State :=
  let s1 :=
    match errors with
    | Some values =>
        setCreateError
          (match values with v :: _ => Text v | [] => Undefined end) s
    | None =>
        setCreateError
          (Text (lit "Failed to create post. Please try again.")) s
    end in
  setIsCreatingPost false s1.

(** [handleDeletePost], up to the [await]; [confirmed] is the answer to
    [window.confirm]. *)
Definition handleDeletePost (postId : Z) (confirmed : bool) (s : State)
  : option Pending :=
  if confirmed then Some (deletePost postId (posts s) (userPosts s))
  else None.

Definition handleDeletePost_then (postId : Z) (posts0 userPosts0 : list Post)
    (s : State) : State :=
  setUserPosts (filter (fun p => negb (id p =? postId)) userPosts0)
    (setPosts (filter (fun p => negb (id p =? postId)) posts0) s).

Definition handleDeletePost_catch : jsstring := lit "Failed to delete post".

(** [handlePostLike] and [handlePostDislike], up to the [await]. *)
Definition handlePostLike (postId : Z) (shouldLike : bool) : Pending :=
  if shouldLike then likePost postId else removeLike postId.

Definition handlePostDislike (postId : Z) (shouldDislike : bool) : Pending :=
  if shouldDislike then dislikePost postId else removeDislike postId.

Definition handlePostLike_catch : jsstring := lit "Failed to update like".
Definition handlePostDislike_catch : jsstring := lit "Failed to update dislike".

End WithUser.

End Dashboard.

(** ** The rendered page: Dashboard, its cards, and the calls in flight

    [Dashboard] renders one [PostCard] per element of [posts] (the feed,
    only while [loading] is false) and hands [userPosts] to [Profile], which
    renders one [PostCard] per element under "My Posts".  Cards are keyed by
    [post.id]: when a list is rendered again, a card whose key is still
    there keeps its four state cells and only takes the new [post] prop; a
    card with a new key is mounted from its post. *)

Module Page.

Import Dashboard.

Record Card := mkCard {
  post : Post;
  state : PostCard.State
}.

Definition mount (p : Post) : Card := mkCard p (PostCard.useState p).

Definition reconcile (old : list Card) (l : list Post) : list Card :=
  map (fun p =>
         match find (fun c => id (post c) =? id p) old with
         | Some c => mkCard p (state c)
         | None => mount p
         end) l.

Inductive View := Feed | MyPosts.

Record World := mkWorld {
  dashboard : State;
  feedCards : list Card;
  profileCards : list Card;
  pending : list Pending;   (* calls awaited, oldest first *)
  reading : list File;      (* FileReader reads under way *)
  alerts : list jsstring    (* what [alert] has shown, oldest first *)
}.

Definition initial : World :=
  mkWorld Dashboard.initial [] [] [] [] [].

Definition other (v : View) : View :=
  match v with Feed => MyPosts | MyPosts => Feed end.

Definition cards (v : View) (w : World) : list Card :=
  match v with Feed => feedCards w | MyPosts => profileCards w end.

Definition setDashboard (s : State) (w : World) : World :=
  mkWorld s (feedCards w) (profileCards w) (pending w) (reading w) (alerts w).

Definition setCards (v : View) (l : list Card) (w : World) : World :=
  match v with
  | Feed =>
      mkWorld (dashboard w) l (profileCards w) (pending w) (reading w)
              (alerts w)
  | MyPosts =>
      mkWorld (dashboard w) (feedCards w) l (pending w) (reading w)
              (alerts w)
  end.

Definition setPending (l : list Pending) (w : World) : World :=
  mkWorld (dashboard w) (feedCards w) (profileCards w) l (reading w)
          (alerts w).

Definition setReading (l : list File) (w : World) : World :=
  mkWorld (dashboard w) (feedCards w) (profileCards w) (pending w) l
          (alerts w).

Definition alert (m : jsstring) (w : World) : World :=
  mkWorld (dashboard w) (feedCards w) (profileCards w) (pending w)
          (reading w) (alerts w ++ [m]).

(** Rendering after [posts], [userPosts] or [loading] changed. *)
Definition render (w : World) : World :=
  mkWorld (dashboard w)
          (if loading (dashboard w) then []
           else reconcile (feedCards w) (posts (dashboard w)))
          (reconcile (profileCards w) (userPosts (dashboard w)))
          (pending w) (reading w) (alerts w).

Fixpoint remove_nth {A} (n : nat) (l : list A) : list A :=
  match n, l with
  | _, [] => []
  | O, _ :: l' => l'
  | S n', a :: l' => a :: remove_nth n' l'
  end.

Fixpoint replace_nth {A} (n : nat) (a : A) (l : list A) : list A :=
  match n, l with
  | _, [] => []
  | O, _ :: l' => a :: l'
  | S n', b :: l' => b :: replace_nth n' a l'
  end.

Definition opt_list {A} (o : option A) : list A :=
  match o with Some a => [a] | None => [] end.

(** What happens on the page. *)
Inductive Event :=
| Mounted                                   (* the effect that calls fetchPosts *)
| Input (value : jsstring)                  (* typing in the textarea *)
| PickImage (file : option File)            (* the file input changes *)
| LoadEnd (n : nat) (result : option jsstring)
| RemoveImage
| Submit                                    (* the create form is submitted *)
| Delete (postId : Z) (confirmed : bool)    (* onDelete(post.id) *)
| Click (v : View) (k : nat) (b : PostCard.Button)
| Settle (n : nat) (r : Reply).             (* the n-th pending call settles *)

Section WithUser.

Variable user_id : Z.

(** The call a card's callback turns into, through the [onLike] and
    [onDislike] props. *)
Definition dispatch (cb : PostCard.Callback) : Pending :=
  match cb with
  | PostCard.onLike postId shouldLike => handlePostLike postId shouldLike
  | PostCard.onDislike postId shouldDislike =>
      handlePostDislike postId shouldDislike
  end.

(** The code after the [await] of the handler that made call [p].  [None]
    is a reply of the wrong shape for the call, which is not modelled. *)
Definition settle (p : Pending) (r : Reply) (w : World) : option World :=
  match p, r with
  | getPosts, Resolved (posts_data l) =>
      Some (render (setDashboard (fetchPosts_then user_id l (dashboard w)) w))
  | getPosts, Rejected _ =>
      Some (render (setDashboard (fetchPosts_catch (dashboard w)) w))
  | createPost _ posts0 userPosts0, Resolved (post_data p) =>
      Some (render (setDashboard
              (handleCreatePost_then user_id p posts0 userPosts0 (dashboard w))
              w))
  | createPost _ _ _, Rejected errors =>
      Some (setDashboard (handleCreatePost_catch errors (dashboard w)) w)
  | deletePost postId posts0 userPosts0, Resolved _ =>
      Some (render (setDashboard
              (handleDeletePost_then postId posts0 userPosts0 (dashboard w))
              w))
  | deletePost _ _ _, Rejected _ => Some (alert handleDeletePost_catch w)
  | (likePost _ | removeLike _), Resolved _ => Some w
  | (likePost _ | removeLike _), Rejected _ =>
      Some (alert handlePostLike_catch w)
  | (dislikePost _ | removeDislike _), Resolved _ => Some w
  | (dislikePost _ | removeDislike _), Rejected _ =>
      Some (alert handlePostDislike_catch w)
  | _, _ => None
  end.

Definition step (w : World) (e : Event) : World :=
  match e with
  | Mounted =>
      let (s, p) := fetchPosts (dashboard w) in
      render (setPending (pending w ++ [p]) (setDashboard s w))
  | Input value =>
      setDashboard (handlePostInputChange value (dashboard w)) w
  | PickImage file =>
      let (s, f) := handlePostImageChange file (dashboard w) in
      setReading (reading w ++ opt_list f) (setDashboard s w)
  | LoadEnd n result =>
      match nth_error (reading w) n with
      | Some _ =>
          setReading (remove_nth n (reading w))
            (setDashboard (onloadend result (dashboard w)) w)
      | None => w
      end
  | RemoveImage => setDashboard (removeImage (dashboard w)) w
  | Submit =>
      let (s, p) := handleCreatePost (dashboard w) in
      setPending (pending w ++ opt_list p) (setDashboard s w)
  | Delete postId confirmed =>
      setPending
        (pending w ++ opt_list (handleDeletePost postId confirmed (dashboard w)))
        w
  | Click v k b =>
      match nth_error (cards v w) k with
      | Some c =>
          let (cb, s) := PostCard.click b (post c) (state c) in
          setPending (pending w ++ [dispatch cb])
            (setCards v (replace_nth k (mkCard (post c) s) (cards v w)) w)
      | None => w
      end
  | Settle n r =>
      match nth_error (pending w) n with
      | Some p =>
          match settle p r (setPending (remove_nth n (pending w)) w) with
          | Some w' => w'
          | None => w
          end
      | None => w
      end
  end.

Definition run (w : World) (es : list Event) : World := fold_left step es w.

(** The worlds passed through, the first one included. *)
Fixpoint worlds (w : World) (es : list Event) : list World :=
  match es with
  | [] => [w]
  | e :: es' => w :: worlds (step w e) es'
  end.

(** *** Operations run to completion

    An operation is a handler together with the way its call settles: the
    handler runs up to its [await], and the call it registered (the one
    past the calls that were pending before) settles before anything else
    happens.  When the handler made no call there is nothing at that index
    and the second step does nothing.  Editing the draft is an operation
    too; picking an image completes when its preview has been read. *)

Inductive Operation :=
| op_fetchPosts (r : Reply)
| op_handleCreatePost (r : Reply)
| op_handleDeletePost (postId : Z) (confirmed : bool) (r : Reply)
| op_react (v : View) (k : nat) (b : PostCard.Button) (r : Reply)
| op_input (value : jsstring)
| op_pickImage (file : option File) (result : option jsstring)
| op_removeImage.

Definition start (op : Operation) : Event :=
  match op with
  | op_fetchPosts _ => Mounted
  | op_handleCreatePost _ => Submit
  | op_handleDeletePost postId confirmed _ => Delete postId confirmed
  | op_react v k b _ => Click v k b
  | op_input value => Input value
  | op_pickImage file _ => PickImage file
  | op_removeImage => RemoveImage
  end.

Definition perform (w : World) (op : Operation) : World :=
  let w1 := step w (start op) in
  match op with
  | op_fetchPosts r | op_handleCreatePost r | op_handleDeletePost _ _ r
  | op_react _ _ _ r =>
      step w1 (Settle (List.length (pending w)) r)
  | op_pickImage _ result =>
      step w1 (LoadEnd (List.length (reading w)) result)
  | op_input _ | op_removeImage => w1
  end.

Definition perform_all (w : World) (ops : list Operation) : World :=
  fold_left perform ops w.

(** *** The predicates the properties are stated with *)

(** [userPosts] is [posts] filtered by author. *)
Definition consistent (s : State) : Prop :=
  userPosts s = filter (is_mine user_id) (posts s).

(** The same, for the lists a pending handler closed over. *)
Definition snapshot_consistent (p : Pending) : Prop :=
  match p with
  | createPost _ posts0 userPosts0 | deletePost _ posts0 userPosts0 =>
      userPosts0 = filter (is_mine user_id) posts0
  | _ => True
  end.

Definition coherent (w : World) : Prop :=
  consistent (dashboard w) /\ Forall snapshot_consistent (pending w).

(** A reply that carries one post carries a post of the viewer, which is
    what the backend answers to the viewer's own [createPost]. *)
Definition own_post_reply (e : Event) : Prop :=
  match e with
  | Settle _ (Resolved (post_data p)) => author p = user_id
  | _ => True
  end.

(** When event [e] settles a [createPost] call with a post, that post is
    the viewer's or [userPosts] still is the list the handler closed over. *)
Definition create_reply_fits (w : World) (e : Event) : Prop :=
  match e with
  | Settle n (Resolved (post_data q)) =>
      match nth_error (pending w) n with
      | Some (createPost _ _ userPosts0) =>
          author q = user_id \/ userPosts (dashboard w) = userPosts0
      | _ => True
      end
  | _ => True
  end.

(** The calls in flight that concern post [postId]'s reaction. *)
Definition is_react_call (postId : Z) (p : Pending) : bool :=
  match p with
  | likePost i | removeLike i | dislikePost i | removeDislike i => i =? postId
  | _ => false
  end.

(** The message [alert] shows when the call behind button [b] fails. *)
Definition failure_alert (b : PostCard.Button) : jsstring :=
  match b with
  | PostCard.Like => handlePostLike_catch
  | PostCard.Dislike => handlePostDislike_catch
  end.

Definition reacts_in_flight (postId : Z) (w : World) : nat :=
  List.length (filter (is_react_call postId) (pending w)).

End WithUser.

End Page.

(** ** Upload checks, in words *)

(** The file's media type is one of the three recognised image kinds. *)
Definition recognised_kind (f : File) : Prop :=
  type f = lit "image/jpeg" \/ type f = lit "image/png"
  \/ type f = lit "image/gif".

(** What a file handler did, read off the state it returns: the handler
    turned the file down with message [msg] (draft untouched, nothing read
    for the preview), or staged it in the draft. *)

Definition signup_rejected (msg : jsstring) (s : Signup.State)
    (out : Signup.State * option File) : Prop :=
  Signup.formData (fst out) = Signup.formData s
  /\ get (lit "profile_picture") (Signup.errors (fst out)) = Some msg
  /\ snd out = None.

Definition signup_staged (f : File) (s : Signup.State)
    (out : Signup.State * option File) : Prop :=
  Signup.profile_picture (Signup.formData (fst out)) = Some f
  /\ Signup.errors (fst out) = Signup.errors s
  /\ snd out = Some f.

Definition profile_rejected (msg : jsstring) (s : Profile.State)
    (out : Profile.State * option File) : Prop :=
  Profile.editData (fst out) = Profile.editData s
  /\ get (lit "profile_picture") (Profile.errors (fst out)) = Some msg
  /\ snd out = None.

Definition profile_staged (f : File) (s : Profile.State)
    (out : Profile.State * option File) : Prop :=
  Profile.profile_picture (Profile.editData (fst out)) = Some f
  /\ Profile.errors (fst out) = Profile.errors s
  /\ snd out = Some f.

Definition post_image_rejected (msg : jsstring) (s : Dashboard.State)
    (out : Dashboard.State * option File) : Prop :=
  Dashboard.newPost (fst out) = Dashboard.newPost s
  /\ Dashboard.createError (fst out) = Text msg
  /\ snd out = None.

Definition post_image_staged (f : File) (s : Dashboard.State)
    (out : Dashboard.State * option File) : Prop :=
  Dashboard.newPost_image (Dashboard.newPost (fst out)) = Some f
  /\ Dashboard.newPost_description (Dashboard.newPost (fst out))
     = Dashboard.newPost_description (Dashboard.newPost s)
  /\ Dashboard.createError (fst out) = Dashboard.createError s
  /\ snd out = Some f.

(** ** Sample values used in the examples *)

Definition sample_post : Post :=
  mkPost 7 1 (lit "Ann") None (lit "hello") None (lit "2024-01-01T10:00:00Z")
         3 1 false true.

Definition sample_png (bytes : Z) : File :=
  mkFile (lit "cat.png") (lit "image/png") bytes.

Definition sample_pdf : File :=
  mkFile (lit "cv.pdf") (lit "application/pdf") 1000.

Definition sample_signup : Signup.State :=
  Signup.mkState
    (Signup.mkFormData (lit "ann@example.org") (lit "Ann") (lit "Lee")
                       (lit "1990-05-01") (lit "") (lit "") None)
    [(lit "email", lit "")] false (lit "") None.

Definition sample_profile : Profile.State :=
  Profile.mkState true
    (Profile.mkEditData (lit "Ann") (lit "Lee") (lit "1990-05-01") (lit "")
                        None)
    [] false None (lit "").

Definition sample_draft : Dashboard.State :=
  Dashboard.handlePostInputChange (lit "hello") Dashboard.initial.

(** The viewer is user 1, the author of [sample_post]. *)
Definition viewer : Z := 1.

Definition other_post : Post :=
  mkPost 8 2 (lit "Bob") None (lit "hi all") None (lit "2024-01-01T09:00:00Z")
         0 0 false false.

Definition created_post : Post :=
  mkPost 42 1 (lit "Ann") None (lit "hello") None (lit "2024-01-02T08:00:00Z")
         0 0 false false.

(** The page once the first [getPosts] has answered with two posts. *)
Definition loaded : Page.World :=
  Page.run viewer Page.initial
    [Page.Mounted;
     Page.Settle 0 (Dashboard.Resolved
                      (Dashboard.posts_data [sample_post; other_post]))].

(** The same page with "hello" typed into the create form. *)
Definition drafted : Page.World :=
  Page.step viewer loaded (Page.Input (lit "hello")).

(** A post that the backend attributes to user 2. *)
Definition foreign_post : Post :=
  mkPost 43 2 (lit "Bob") None (lit "hello") None (lit "2024-01-02T08:00:00Z")
         0 0 false false.

(** * The rest of the front end *)

(** ** Regular expressions of the validators

    The two forms test e-mail addresses against
    [/^[^\s@]+@[^\s@]+\.[^\s@]+$/].  A pattern without flags works on code
    units; between [^] and [$] it has to match the whole input.  Patterns are
    kept as syntax and run by derivatives. *)

Module Regex.

Inductive re :=
| Never                        (* matches nothing *)
| Empty                        (* matches the empty string *)
| Class (f : Z -> bool)        (* one code unit of a class *)
| Seq (r1 r2 : re)
| Alt (r1 r2 : re)
| Star (r : re).

(** [r+] *)
Definition Plus (r : re) : re := Seq r (Star r).

Fixpoint nullable (r : re) : bool :=
  match r with
  | Never => false
  | Empty => true
  | Class _ => false
  | Seq r1 r2 => nullable r1 && nullable r2
  | Alt r1 r2 => nullable r1 || nullable r2
  | Star _ => true
  end.

Fixpoint deriv (c : Z) (r : re) : re :=
  match r with
  | Never => Never
  | Empty => Never
  | Class f => if f c then Empty else Never
  | Seq r1 r2 =>
      if nullable r1
      then Alt (Seq (deriv c r1) r2) (deriv c r2)
      else Seq (deriv c r1) r2
  | Alt r1 r2 => Alt (deriv c r1) (deriv c r2)
  | Star r1 => Seq (deriv c r1) (Star r1)
  end.

(** [/^r$/.test(s)] *)
Fixpoint test (r : re) (s : jsstring) : bool :=
  match s with
  | [] => nullable r
  | c :: s' => test (deriv c r) s'
  end.

(** The strings a pattern matches, as the textbook has them. *)
Inductive matches : re -> jsstring -> Prop :=
| m_empty : matches Empty []
| m_class f c : f c = true -> matches (Class f) [c]
| m_seq r1 r2 s1 s2 :
    matches r1 s1 -> matches r2 s2 -> matches (Seq r1 r2) (s1 ++ s2)
| m_alt_l r1 r2 s : matches r1 s -> matches (Alt r1 r2) s
| m_alt_r r1 r2 s : matches r2 s -> matches (Alt r1 r2) s
| m_star_nil r : matches (Star r) []
| m_star_cons r c s1 s2 :
    matches r (c :: s1) -> matches (Star r) s2 ->
    matches (Star r) (c :: s1 ++ s2).

(** [[^\s@]]: [\s] is the set [trim] strips. *)
Definition not_space_or_at (c : Z) : bool :=
  negb (is_js_space c || (c =? 64)).

(** [^[^\s@]+@[^\s@]+\.[^\s@]+$] *)
Definition email_pattern : re :=
  Seq (Plus (Class not_space_or_at))
      (Seq (Class (fun c => c =? 64))
           (Seq (Plus (Class not_space_or_at))
                (Seq (Class (fun c => c =? 46))
                     (Plus (Class not_space_or_at))))).

(** LineTerminator code units, the ones [.] does not match. *)
Definition is_line_terminator (c : Z) : bool :=
  (c =? 10) || (c =? 13) || (c =? 8232) || (c =? 8233).

(** [(?=.*[cls])] at the start of [s]: some code unit of the class, with
    nothing but [.]-matchable code units before it. *)
Fixpoint lookahead_any (cls : Z -> bool) (s : jsstring) : bool :=
  match s with
  | [] => false
  | c :: s' => cls c || (negb (is_line_terminator c) && lookahead_any cls s')
  end.

Definition lower (c : Z) : bool := (97 <=? c) && (c <=? 122).   (* [a-z] *)
Definition upper (c : Z) : bool := (65 <=? c) && (c <=? 90).    (* [A-Z] *)
Definition digit (c : Z) : bool := (48 <=? c) && (c <=? 57).    (* \d *)

(** [/(?=.*[a-z])(?=.*[A-Z])(?=.*\d)/.test(s)]: the pattern is not
    anchored, so every start position is tried, the end included. *)
Fixpoint password_test (s : jsstring) : bool :=
  lookahead_any lower s && lookahead_any upper s && lookahead_any digit s
  || match s with
     | [] => false
     | _ :: s' => password_test s'
     end.

End Regex.

(** ** localStorage

    String keys to string values; the [object] operations serve, with
    [removeItem] added. *)

Definition getItem (k : jsstring) (ls : object) : option jsstring := get k ls.

Definition setItem (k v : jsstring) (ls : object) : object := assign k v ls.

Definition removeItem (k : jsstring) (ls : object) : object :=
  filter (fun kv => negb (jsstring_eqb k (fst kv))) ls.

(** Truthiness of what [getItem] or an optional field gives: [null] and the
    empty string are falsy. *)
Definition truthy_opt (o : option jsstring) : bool :=
  match o with Some s => truthy s | None => false end.

(** ** utils/api.js *)

Module Api.

(** The request interceptor, on the headers of the outgoing request. *)
Definition request_interceptor (ls : object) (headers : object) : object :=
  match getItem (lit "access_token") ls with
  | Some token =>
      if truthy token
      then assign (lit "Authorization") (lit "Bearer " ++ token) headers
      else headers
  | None => headers
  end.

(** The error branch of the response interceptor: [status] is
    [error.response?.status].  The result is the storage afterwards and the
    page the window is sent to, if any; the error is rejected either way. *)
Definition response_error_interceptor (status : option Z) (ls : object)
  : object * option jsstring :=
  match status with
  | Some 401 =>
      (removeItem (lit "refresh_token") (removeItem (lit "access_token") ls),
       Some (lit "/login"))
  | _ => (ls, None)
  end.

(** A part of a multipart body. *)
Inductive part :=
| text_part (s : jsstring)
| file_part (f : File).

Definition append_text (k : jsstring) (v : jsstring)
    (body : list (jsstring * part)) : list (jsstring * part) :=
  if truthy v then body ++ [(k, text_part v)] else body.

(** The body [authAPI.updateProfile] builds. *)
Definition updateProfile (profileData : Profile.EditData)
  : list (jsstring * part) :=
  let b1 := append_text (lit "first_name") (Profile.first_name profileData) [] in
  let b2 := append_text (lit "last_name") (Profile.last_name profileData) b1 in
  let b3 := append_text (lit "date_of_birth")
                        (Profile.date_of_birth profileData) b2 in
  let b4 := append_text (lit "bio") (Profile.bio profileData) b3 in
  match Profile.profile_picture profileData with
  | Some f => b4 ++ [(lit "profile_picture", file_part f)]
  | None => b4
  end.

(** The body [postsAPI.createPost] builds. *)
Definition createPost (postData : Dashboard.NewPost)
  : list (jsstring * part) :=
  let b1 := [(lit "description",
              text_part (Dashboard.newPost_description postData))] in
  match Dashboard.newPost_image postData with
  | Some f => b1 ++ [(lit "image", file_part f)]
  | None => b1
  end.

(** The body [authAPI.signup] sends: the form has no [username], so that
    property is [undefined]; the picture is not among the properties. *)
Definition signup (userData : Signup.FormData) : list (jsstring * message) :=
  [(lit "email", Text (Signup.email userData));
   (lit "username", Undefined);
   (lit "first_name", Text (Signup.first_name userData));
   (lit "last_name", Text (Signup.last_name userData));
   (lit "date_of_birth", Text (Signup.date_of_birth userData));
   (lit "password", Text (Signup.password userData));
   (lit "password2", Text (Signup.password2 userData))].

End Api.

(** ** components/Signup.jsx: the form *)

Module SignupForm.

Import Signup.

(** The text inputs that go through [handleInputChange]. *)
Inductive Field :=
| f_email | f_first_name | f_last_name | f_date_of_birth
| f_password | f_password2.

Definition field_name (x : Field) : jsstring :=
  match x with
  | f_email => lit "email"
  | f_first_name => lit "first_name"
  | f_last_name => lit "last_name"
  | f_date_of_birth => lit "date_of_birth"
  | f_password => lit "password"
  | f_password2 => lit "password2"
  end.

(** [{...prev, [name]: value}] on the form data. *)
Definition with_field (x : Field) (value : jsstring) (d : FormData) : FormData :=
  match x with
  | f_email =>
      mkFormData value (first_name d) (last_name d) (date_of_birth d)
                 (password d) (password2 d) (profile_picture d)
  | f_first_name =>
      mkFormData (email d) value (last_name d) (date_of_birth d)
                 (password d) (password2 d) (profile_picture d)
  | f_last_name =>
      mkFormData (email d) (first_name d) value (date_of_birth d)
                 (password d) (password2 d) (profile_picture d)
  | f_date_of_birth =>
      mkFormData (email d) (first_name d) (last_name d) value
                 (password d) (password2 d) (profile_picture d)
  | f_password =>
      mkFormData (email d) (first_name d) (last_name d) (date_of_birth d)
                 value (password2 d) (profile_picture d)
  | f_password2 =>
      mkFormData (email d) (first_name d) (last_name d) (date_of_birth d)
                 (password d) value (profile_picture d)
  end.

Definition handleInputChange (x : Field) (value : jsstring) (s : State)
  : State :=
  let s1 := setFormData (with_field x value) s in
  if truthy_opt (get (field_name x) (errors s))
  then setErrors (assign (field_name x) (lit "")) s1
  else s1.

Definition setLoading (v : bool) (s : State) : State :=
  mkState (formData s) (errors s) v (successMessage s) (previewImage s).

Definition setSuccessMessage (v : jsstring) (s : State) : State :=
  mkState (formData s) (errors s) (loading s) v (previewImage s).

(** The cleared form [handleSubmit] sets on success. *)
Definition empty_form : FormData :=
  mkFormData (lit "") (lit "") (lit "") (lit "") (lit "") (lit "") None.

Section WithClock.

(** [new Date().getFullYear()], and [new Date(text).getFullYear()], which
    is [NaN] ([None]) for a text that is no date. *)
Variable thisYear : Z.
Variable getFullYear : jsstring -> option Z.

(** [age < 13]; a comparison with [NaN] is false. *)
Definition too_young (date_of_birth : jsstring) : bool :=
  match getFullYear date_of_birth with
  | Some y => thisYear - y <? 13
  | None => false
  end.

(** The [newErrors] object [validateForm] builds, property by property. *)
Definition newErrors (d : FormData) : object :=
  let e1 :=
    if negb (truthy (trim (email d))) then
      [(lit "email", lit "Email is required")]
    else if negb (Regex.test Regex.email_pattern (email d)) then
      [(lit "email", lit "Please enter a valid email")]
    else [] in
  let e2 :=
    if negb (truthy (trim (first_name d))) then
      assign (lit "first_name") (lit "First name is required") e1
    else e1 in
  let e3 :=
    if negb (truthy (trim (last_name d))) then
      assign (lit "last_name") (lit "Last name is required") e2
    else e2 in
  let e4 :=
    if negb (truthy (date_of_birth d)) then
      assign (lit "date_of_birth") (lit "Date of birth is required") e3
    else if too_young (date_of_birth d) then
      assign (lit "date_of_birth") (lit "Must be at least 13 years old") e3
    else e3 in
  let e5 :=
    if negb (truthy (password d)) then
      assign (lit "password") (lit "Password is required") e4
    else if Z.of_nat (List.length (password d)) <? 8 then
      assign (lit "password") (lit "Password must be at least 8 characters")
             e4
    else if negb (Regex.password_test (password d)) then
      assign (lit "password")
             (lit "Password must contain uppercase, lowercase, and numbers")
             e4
    else e4 in
  if negb (jsstring_eqb (password d) (password2 d)) then
    assign (lit "password2") (lit "Passwords do not match") e5
  else e5.

(** [validateForm]: the state with the errors set, and the verdict
    [Object.keys(newErrors).length === 0]. *)
Definition validateForm (s : State) : State * bool :=
  let e := newErrors (formData s) in
  (setErrors (fun _ => e) s, Nat.eqb (List.length e) 0).

(** [handleSubmit], up to the [await]: the state, and the body of the
    [authAPI.signup] call when one is made. *)
Definition handleSubmit (s : State)
  : State * option (list (jsstring * message)) :=
  let (s1, valid) := validateForm s in
  if negb valid then (s1, None)
  else (setSuccessMessage (lit "") (setLoading true s1),
        Some (Api.signup (formData s))).

(** After the [await], on success.  (The call of [onSignupSuccess] two
    seconds later is [App]'s [SignedUp] event.) *)
Definition handleSubmit_then (s : State) : State :=
  setLoading false
    (setPreviewImage None
       (setFormData (fun _ => empty_form)
          (setSuccessMessage
             (lit "Signup successful! Redirecting to login...") s))).

(** After the [await], on failure: [errors] and [message] are
    [error.response?.data?.errors] and [error.response?.data?.message]. *)
Definition handleSubmit_catch (errors : option object)
    (message : option jsstring) (s : State) : State :=
  let e :=
    match errors with
    | Some o => o
    | None =>
        if truthy_opt message
        then [(lit "submit", match message with Some m => m | None => [] end)]
        else [(lit "submit",
               lit "An error occurred during signup. Please try again.")]
    end in
  setLoading false (setErrors (fun _ => e) s).

End WithClock.

End SignupForm.

(** ** components/Login.jsx *)

Module Login.

Record FormData := mkFormData {
  email : jsstring;
  password : jsstring
}.

Record State := mkState {
  formData : FormData;
  errors : object;
  loading : bool
}.

Definition initial : State := mkState (mkFormData (lit "") (lit "")) [] false.

Inductive Field := f_email | f_password.

Definition field_name (x : Field) : jsstring :=
  match x with f_email => lit "email" | f_password => lit "password" end.

Definition handleInputChange (x : Field) (value : jsstring) (s : State)
  : State :=
  let d :=
    match x with
    | f_email => mkFormData value (password (formData s))
    | f_password => mkFormData (email (formData s)) value
    end in
  if truthy_opt (get (field_name x) (errors s))
  then mkState d (assign (field_name x) (lit "") (errors s)) (loading s)
  else mkState d (errors s) (loading s).

Definition newErrors (d : FormData) : object :=
  let e1 :=
    if negb (truthy (trim (email d))) then
      [(lit "email", lit "Email is required")]
    else if negb (Regex.test Regex.email_pattern (email d)) then
      [(lit "email", lit "Please enter a valid email")]
    else [] in
  if negb (truthy (password d)) then
    assign (lit "password") (lit "Password is required") e1
  else e1.

Definition validateForm (s : State) : State * bool :=
  let e := newErrors (formData s) in
  (mkState (formData s) e (loading s), Nat.eqb (List.length e) 0).

(** [handleSubmit], up to the [await]: the credentials sent, if any. *)
Definition handleSubmit (s : State) : State * option FormData :=
  let (s1, valid) := validateForm s in
  if negb valid then (s1, None)
  else (mkState (formData s1) (errors s1) true, Some (formData s)).

Section WithUser.

(** The user value of the response and [JSON.stringify]. *)
Variable User : Type.
Variable JSON_stringify : User -> jsstring.

(** [response.data] of a successful login. *)
Record Response := mkResponse {
  access : jsstring;
  refresh : jsstring;
  user : User
}.

(** After the [await], on success: the state, the storage, and the user
    handed to [onLoginSuccess]. *)
Definition handleSubmit_then (r : Response) (ls : object) (s : State)
  : State * object * User :=
  let ls1 := setItem (lit "access_token") (access r) ls in
  let ls2 := setItem (lit "refresh_token") (refresh r) ls1 in
  let ls3 := setItem (lit "user") (JSON_stringify (user r)) ls2 in
  (mkState (formData s) (errors s) false, ls3, user r).

End WithUser.

Arguments mkResponse {User}.
Arguments access {User}.
Arguments refresh {User}.
Arguments user {User}.
Arguments handleSubmit_then {User}.

(** After the [await], on failure. *)
Definition handleSubmit_catch (message : option jsstring) (s : State) : State :=
  let e :=
    if truthy_opt message
    then [(lit "submit", match message with Some m => m | None => [] end)]
    else [(lit "submit", lit "Login failed. Please check your credentials.")]
  in
  mkState (formData s) e false.

End Login.

(** ** App.jsx *)

Module App.

Section WithUser.

Variable User : Type.
Variable JSON_parse : jsstring -> option User.   (* [None]: it throws *)

Record State := mkState {
  currentPage : jsstring;
  isAuthenticated : bool;
  user : option User
}.

Definition initial : State := mkState (lit "login") false None.

(** The mount effect.  [None] is the effect throwing in [JSON.parse]. *)
Definition useEffect (ls : object) (s : State) : option State :=
  match getItem (lit "access_token") ls, getItem (lit "user") ls with
  | Some token, Some userData =>
      if truthy token && truthy userData then
        match JSON_parse userData with
        | Some u => Some (mkState (currentPage s) true (Some u))
        | None => None
        end
      else Some s
  | _, _ => Some s
  end.

Definition handleLoginSuccess (userData : User) (s : State) : State :=
  mkState (lit "dashboard") true (Some userData).

Definition handleSignupSuccess (s : State) : State :=
  mkState (lit "login") (isAuthenticated s) (user s).

Definition handleLogout (ls : object) (s : State) : State * object :=
  (mkState (lit "login") false None,
   removeItem (lit "user")
     (removeItem (lit "refresh_token")
        (removeItem (lit "access_token") ls))).

(** The two link buttons under the forms. *)
Definition setCurrentPage (page : jsstring) (s : State) : State :=
  mkState page (isAuthenticated s) (user s).

(** What [App] returns. *)
Inductive Screen :=
| LoginScreen
| SignupScreen
| DashboardScreen (u : option User).

Definition render (s : State) : Screen :=
  if negb (isAuthenticated s) then
    if jsstring_eqb (currentPage s) (lit "login")
    then LoginScreen else SignupScreen
  else DashboardScreen (user s).

(** What can happen to [App] once mounted. *)
Inductive Event :=
| LoggedIn (userData : User)     (* Login calls onLoginSuccess *)
| SignedUp                       (* Signup calls onSignupSuccess *)
| LoggedOut                      (* Dashboard calls onLogout *)
| ToSignup                       (* the "Sign Up" link *)
| ToLogin.                       (* the "Login" link *)

Definition step (sl : State * object) (e : Event) : State * object :=
  let (s, ls) := sl in
  match e with
  | LoggedIn u => (handleLoginSuccess u s, ls)
  | SignedUp => (handleSignupSuccess s, ls)
  | LoggedOut => handleLogout ls s
  | ToSignup => (setCurrentPage (lit "signup") s, ls)
  | ToLogin => (setCurrentPage (lit "login") s, ls)
  end.

End WithUser.

Arguments mkState {User}.
Arguments currentPage {User}.
Arguments isAuthenticated {User}.
Arguments user {User}.
Arguments initial {User}.
Arguments useEffect {User}.
Arguments handleLoginSuccess {User}.
Arguments handleSignupSuccess {User}.
Arguments handleLogout {User}.
Arguments setCurrentPage {User}.
Arguments LoginScreen {User}.
Arguments SignupScreen {User}.
Arguments DashboardScreen {User}.
Arguments render {User}.
Arguments LoggedIn {User}.
Arguments SignedUp {User}.
Arguments LoggedOut {User}.
Arguments ToSignup {User}.
Arguments ToLogin {User}.
Arguments step {User}.

End App.

(** ** components/Profile.jsx: editing *)

Module ProfileEdit.

Import Profile.

Inductive Field := f_first_name | f_last_name | f_date_of_birth | f_bio.

Definition field_name (x : Field) : jsstring :=
  match x with
  | f_first_name => lit "first_name"
  | f_last_name => lit "last_name"
  | f_date_of_birth => lit "date_of_birth"
  | f_bio => lit "bio"
  end.

Definition handleInputChange (x : Field) (value : jsstring) (s : State)
  : State :=
  setEditData
    (fun prev =>
       match x with
       | f_first_name =>
           mkEditData value (last_name prev) (date_of_birth prev) (bio prev)
                      (profile_picture prev)
       | f_last_name =>
           mkEditData (first_name prev) value (date_of_birth prev) (bio prev)
                      (profile_picture prev)
       | f_date_of_birth =>
           mkEditData (first_name prev) (last_name prev) value (bio prev)
                      (profile_picture prev)
       | f_bio =>
           mkEditData (first_name prev) (last_name prev) (date_of_birth prev)
                      value (profile_picture prev)
       end) s.

(** [handleSaveProfile], up to the first [await]: the state and the body of
    the [authAPI.updateProfile] call. *)
Definition handleSaveProfile (s : State)
  : State * list (jsstring * Api.part) :=
  (mkState (isEditing s) (editData s) [] true (previewImage s)
           (successMessage s),
   Api.updateProfile (editData s)).

(** Between the two [await]s, once [updateProfile] has succeeded. *)
Definition handleSaveProfile_updated (s : State) : State :=
  mkState false (editData s) (errors s) (loading s) (previewImage s)
          (lit "Profile updated successfully!").

(** After [getProfile] has succeeded too. *)
Definition handleSaveProfile_then (s : State) : State :=
  mkState (isEditing s) (editData s) (errors s) false (previewImage s)
          (successMessage s).

(** When either call fails. *)
Definition handleSaveProfile_catch (errors : option object) (s : State)
  : State :=
  mkState (isEditing s) (editData s)
          (match errors with
           | Some o => o
           | None => [(lit "submit", lit "Failed to update profile")]
           end)
          false (previewImage s) (successMessage s).

End ProfileEdit.

(** ** components/PostCard.jsx: the delete button *)

(** [const isAuthor = currentUserId === post.author]; the button is
    rendered when it is true. *)
Definition isAuthor (currentUserId : Z) (post : Post) : bool :=
  currentUserId =? author post.

(** ** More predicates and sample values *)

(** The reactions of everybody but the viewer, as a card counts them. *)
Definition others_likes (s : PostCard.State) : Z :=
  PostCard.likesCount s - (if PostCard.isLiked s then 1 else 0).

Definition others_dislikes (s : PostCard.State) : Z :=
  PostCard.dislikesCount s - (if PostCard.isDisliked s then 1 else 0).

(** A code unit [trim] would strip. *)
Definition blank (s : jsstring) : Prop :=
  Forall (fun c => is_js_space c = true) s.

(** The cards on the page are those of the lists: "My Posts" has one card
    per element of [userPosts], the feed one per element of [posts], or
    none while loading. *)
Definition cards_mirror_lists (w : Page.World) : Prop :=
  map Page.post (Page.profileCards w) = Dashboard.userPosts (Page.dashboard w)
  /\ (if Dashboard.loading (Page.dashboard w)
      then Page.feedCards w = []
      else map Page.post (Page.feedCards w)
           = Dashboard.posts (Page.dashboard w)).

(** A non-empty run of code units that are neither white space nor "@". *)
Definition address_part (s : jsstring) : Prop :=
  s <> [] /\ Forall (fun c => is_js_space c = false /\ c <> 64) s.

(** Some code unit of [s] is in the class. *)
Definition has (cls : Z -> bool) (s : jsstring) : Prop :=
  Exists (fun c => cls c = true) s.

(** No code unit of [s] ends a line. *)
Definition one_line (s : jsstring) : Prop :=
  Forall (fun c => Regex.is_line_terminator c = false) s.

(** What [validateForm] of the sign-up form asks of the fields. *)
Definition signup_acceptable (thisYear : Z) (getFullYear : jsstring -> option Z)
    (d : Signup.FormData) : Prop :=
  Regex.test Regex.email_pattern (Signup.email d) = true
  /\ ~ blank (Signup.first_name d)
  /\ ~ blank (Signup.last_name d)
  /\ Signup.date_of_birth d <> []
  /\ SignupForm.too_young thisYear getFullYear (Signup.date_of_birth d) = false
  /\ (8 <= List.length (Signup.password d))%nat
  /\ Regex.password_test (Signup.password d) = true
  /\ Signup.password2 d = Signup.password d.

(** What [validateForm] of the login form asks of the fields. *)
Definition login_acceptable (d : Login.FormData) : Prop :=
  Regex.test Regex.email_pattern (Login.email d) = true
  /\ Login.password d <> [].

(** The three keys the session lives under. *)
Definition session_key (k : jsstring) : Prop :=
  k = lit "access_token" \/ k = lit "refresh_token" \/ k = lit "user".

(** [App]'s state hangs together: logged out there is no user and the
    page is "login" or "signup"; logged in there is a user. *)
Definition app_well_formed {User : Type} (s : App.State User) : Prop :=
  (App.isAuthenticated s = false ->
   App.user s = None
   /\ (App.currentPage s = lit "login" \/ App.currentPage s = lit "signup"))
  /\ (App.isAuthenticated s = true -> App.user s <> None).

(** A clock for the examples: it is 2024 and every date lies in 1990. *)
Definition sample_getFullYear (text : jsstring) : option Z := Some 1990.

(** A sign-up form filled in properly, with a picture picked. *)
Definition sample_filled_signup : Signup.State :=
  fst (Signup.handleFileChange (Some (sample_png 1000))
         (Signup.mkState
            (Signup.mkFormData (lit "ann@example.org") (lit "Ann") (lit "Lee")
                               (lit "1990-05-01") (lit "Passw0rd")
                               (lit "Passw0rd") None)
            [] false (lit "") None)).

Definition sample_login : Login.State :=
  Login.mkState (Login.mkFormData (lit "ann@example.org") (lit "Passw0rd"))
                [] false.

(** A login reply whose user value is the text ["Ann"], with a JSON codec
    for such values that adds and strips the quotes. *)
Definition sample_response : Login.Response jsstring :=
  Login.mkResponse (lit "tok-a") (lit "tok-r") (lit "Ann").

Definition sample_stringify (u : jsstring) : jsstring := 34 :: u ++ [34].

Definition sample_parse (t : jsstring) : option jsstring :=
  match t with
  | 34 :: t' =>
      match rev t' with
      | 34 :: r => Some (rev r)
      | _ => None
      end
  | _ => None
  end.

Definition sample_profile_edit : Profile.State :=
  Profile.mkState true
    (Profile.mkEditData (lit "Ann") (lit "Lee") (lit "1990-05-01")
                        (lit "I like cats") None)
    [] false None (lit "").

(** ** The transition table of the reaction slot

    The table the specification gives for one reaction slot, kept apart
    from the handlers so that the two can be compared: current state and
    requested action to next state and the deltas of the two counters.  The
    combinations the table does not list are the repeats of a state that is
    already there; they change nothing. *)






(** ** A card followed across events

    The state of the card of post [postId] in view [v]: the state of the
    first card with that key, the one a re-render of the list takes the
    state from; [None] when the view has no such card. *)

Definition shown (v : Page.View) (postId : Z) (w : Page.World)
  : option PostCard.State :=
  option_map Page.state
    (find (fun c => id (Page.post c) =? postId) (Page.cards v w)).







(** * Properties *)

(** ** Reactions on one card *)

Section CardProperties.

Import PostCard.

Lemma click_exclusive (b : Button) (post : Post) (s : State) :
  exclusive s -> exclusive (snd (click b post s)).
Proof.
  unfold exclusive; destruct b; cbn [click];
    unfold handleLike, handleDislike;
    destruct (isLiked s) eqn:L, (isDisliked s) eqn:D; cbn; congruence.
Qed.

Lemma states_exclusive (post : Post) (bs : list Button) :
  forall s, exclusive s -> Forall exclusive (states post bs s).
Proof.
  induction bs as [|b bs IH]; intros s Hs; cbn [states].
  - constructor; [exact Hs | constructor].
  - constructor; [exact Hs | apply IH, click_exclusive, Hs].
Qed.

(** C1.  Starting from a card whose like and dislike flags are not both
    set, every state reached by any sequence of clicks on the like and
    dislike buttons (each click sets or clears its own polarity) has at most
    one of the two flags set; and a click that sets one polarity leaves the
    other one cleared in the same state change. *)
Theorem reaction_flags_never_both (post : Post) (bs : list Button) (s : State) :
  exclusive s ->
  Forall exclusive (states post bs s)
  /\ (isLiked s = false ->
      isLiked (snd (handleLike post s)) = true
      /\ isDisliked (snd (handleLike post s)) = false)
  /\ (isDisliked s = false ->
      isDisliked (snd (handleDislike post s)) = true
      /\ isLiked (snd (handleDislike post s)) = false).
Proof.
  intros Hs; split; [apply states_exclusive, Hs|].
  unfold handleLike, handleDislike; split; intros ->; cbn.
  - destruct (isDisliked s); auto.
  - destruct (isLiked s); auto.
Qed.

Lemma reaction_flags_never_both_witness :
  exclusive (useState sample_post)
  /\ Forall exclusive
       (states sample_post [Like; Dislike; Dislike; Like; Like]
               (useState sample_post)).
Proof.
  split; [reflexivity|].
  apply (reaction_flags_never_both sample_post
           [Like; Dislike; Dislike; Like; Like] (useState sample_post)).
  reflexivity.
Defined.

(** C2.  On a card in the disliked state a click on the like button asks
    for the like to be set and yields the liked state with [likesCount] one
    higher and [dislikesCount] one lower; from likes 3, dislikes 1 it yields
    likes 4, dislikes 0, liked and not disliked. *)
Theorem like_on_disliked_card (post : Post) (likes dislikes : Z) :
  handleLike post (mkState false true likes dislikes)
  = (onLike (id post) true, mkState true false (likes + 1) (dislikes - 1))
  /\ snd (handleLike post (mkState false true 3 1)) = mkState true false 4 0.
Proof. split; reflexivity. Qed.

(** The like button is a toggle: on a liked card a click on it is the
    "Unlike" of the code.  From a neutral card with 3 likes the first click
    gives liked with 4 likes and the second gives not liked with 3 likes. *)
Lemma second_like_click_changes_state :
  let s0 := mkState false false 3 0 in
  let s1 := snd (handleLike sample_post s0) in
  let s2 := snd (handleLike sample_post s1) in
  s1 = mkState true false 4 0
  /\ s2 = mkState false false 3 0
  /\ s2 <> s1.
Proof. cbn; repeat split; discriminate. Qed.

(** On a card that is not liked, two clicks on the like button in a row
    first set the like and then clear it: the first asks for the like to be
    set, the second for it to be removed; afterwards the card is not liked
    and [likesCount] is back to its value before the first click, while the
    dislike flag and count stay as the first click left them. *)
Lemma like_clicked_twice_toggles (post : Post) (disliked : bool)
    (likes dislikes : Z) :
  let s0 := mkState false disliked likes dislikes in
  let dislikes1 := if disliked then dislikes - 1 else dislikes in
  handleLike post s0
  = (onLike (id post) true, mkState true false (likes + 1) dislikes1)
  /\ handleLike post (snd (handleLike post s0))
     = (onLike (id post) false, mkState false false likes dislikes1).
Proof.
  destruct disliked; cbn; split; repeat f_equal; lia.
Qed.

End CardProperties.

(** ** Upload staging *)

Lemma jsstring_eqb_eq (a b : jsstring) : jsstring_eqb a b = true <-> a = b.
Proof.
  unfold jsstring_eqb; destruct (list_eq_dec Z.eq_dec a b); split;
    congruence.
Qed.

Lemma includes_In (l : list jsstring) (s : jsstring) :
  includes l s = true <-> In s l.
Proof.
  unfold includes; rewrite existsb_exists; split.
  - intros (x & Hx & E); apply jsstring_eqb_eq in E; subst; exact Hx.
  - intros H; exists s; split; [exact H | apply jsstring_eqb_eq; reflexivity].
Qed.

Lemma includes_validTypes (f : File) :
  includes validTypes (type f) = true <-> recognised_kind f.
Proof.
  rewrite includes_In; unfold validTypes, recognised_kind; cbn [In].
  intuition congruence.
Qed.

Lemma includes_validTypes_false (f : File) :
  includes validTypes (type f) = false <-> ~ recognised_kind f.
Proof.
  rewrite <- includes_validTypes; destruct (includes validTypes (type f));
    split; congruence.
Qed.

Lemma get_assign (k v : jsstring) (o : object) : get k (assign k v o) = Some v.
Proof.
  assert (R : jsstring_eqb k k = true) by (apply jsstring_eqb_eq; reflexivity).
  induction o as [|[k' v'] o IH]; cbn [assign get].
  - now rewrite R.
  - destruct (jsstring_eqb k k') eqn:E; cbn [get]; rewrite ?R, ?E; auto.
Qed.

Ltac file_checks f :=
  let K := fresh "K" in
  let Z := fresh "Z" in
  destruct (includes validTypes (type f)) eqn:K;
  [ apply includes_validTypes in K | apply includes_validTypes_false in K ];
  cbn [negb];
  try match goal with
      | |- context [size f >? ?n] =>
          destruct (Z.gtb_spec (size f) n) as [Z|Z]
      end.

Lemma signup_file_checks (f : File) (s : Signup.State) :
  let out := Signup.handleFileChange (Some f) s in
  (~ recognised_kind f ->
   signup_rejected (lit "Please upload a valid image file (JPG, PNG, GIF)")
                   s out)
  /\ (recognised_kind f -> size f > 5 * 1024 * 1024 ->
      signup_rejected (lit "File size must be less than 5MB") s out)
  /\ (recognised_kind f -> size f <= 5 * 1024 * 1024 ->
      signup_staged f s out).
Proof.
  unfold signup_rejected, signup_staged, Signup.handleFileChange.
  file_checks f; cbn; repeat split; intros;
    try contradiction; try lia; auto using get_assign.
Qed.

Lemma profile_file_checks (f : File) (s : Profile.State) :
  let out := Profile.handlePictureChange (Some f) s in
  (~ recognised_kind f -> profile_rejected (lit "Invalid file type") s out)
  /\ (recognised_kind f -> size f > 5 * 1024 * 1024 ->
      profile_rejected (lit "File too large (max 5MB)") s out)
  /\ (recognised_kind f -> size f <= 5 * 1024 * 1024 ->
      profile_staged f s out).
Proof.
  unfold profile_rejected, profile_staged, Profile.handlePictureChange.
  file_checks f; cbn; repeat split; intros;
    try contradiction; try lia; auto.
Qed.

Lemma post_image_checks (f : File) (s : Dashboard.State) :
  let out := Dashboard.handlePostImageChange (Some f) s in
  (~ recognised_kind f ->
   post_image_rejected (lit "Invalid image format. Use JPG, PNG, or GIF.")
                       s out)
  /\ (recognised_kind f -> size f > 10 * 1024 * 1024 ->
      post_image_rejected (lit "Image must be less than 10MB") s out)
  /\ (recognised_kind f -> size f <= 10 * 1024 * 1024 ->
      post_image_staged f s out).
Proof.
  unfold post_image_rejected, post_image_staged,
    Dashboard.handlePostImageChange.
  file_checks f; cbn; repeat split; intros;
    try contradiction; try lia; auto.
Qed.

(** C8.  The three file handlers recognise exactly three media types and
    turn every other type down with their unsupported-type message; a file
    of a recognised type is turned down with the too-large message when it
    is over 5 MiB for a profile picture (sign-up and profile edit) and over
    10 MiB for a feed post image; a file of a recognised type within the
    limit is put into the draft, and the next [createPost] call carries
    it. *)
Theorem upload_staging (f : File) :
  (List.length validTypes = 3%nat /\ NoDup validTypes
   /\ (In (type f) validTypes <-> recognised_kind f))
  /\ (forall s,
        let out := Signup.handleFileChange (Some f) s in
        (~ recognised_kind f ->
         signup_rejected
           (lit "Please upload a valid image file (JPG, PNG, GIF)") s out)
        /\ (recognised_kind f -> size f > 5 * 1024 * 1024 ->
            signup_rejected (lit "File size must be less than 5MB") s out)
        /\ (recognised_kind f -> size f <= 5 * 1024 * 1024 ->
            signup_staged f s out))
  /\ (forall s,
        let out := Profile.handlePictureChange (Some f) s in
        (~ recognised_kind f ->
         profile_rejected (lit "Invalid file type") s out)
        /\ (recognised_kind f -> size f > 5 * 1024 * 1024 ->
            profile_rejected (lit "File too large (max 5MB)") s out)
        /\ (recognised_kind f -> size f <= 5 * 1024 * 1024 ->
            profile_staged f s out))
  /\ (forall s,
        let out := Dashboard.handlePostImageChange (Some f) s in
        (~ recognised_kind f ->
         post_image_rejected
           (lit "Invalid image format. Use JPG, PNG, or GIF.") s out)
        /\ (recognised_kind f -> size f > 10 * 1024 * 1024 ->
            post_image_rejected (lit "Image must be less than 10MB") s out)
        /\ (recognised_kind f -> size f <= 10 * 1024 * 1024 ->
            post_image_staged f s out
            /\ (truthy (trim (Dashboard.newPost_description
                                (Dashboard.newPost s))) = true ->
                snd (Dashboard.handleCreatePost (fst out))
                = Some (Dashboard.createPost
                          (Dashboard.mkNewPost
                             (Dashboard.newPost_description
                                (Dashboard.newPost s)) (Some f))
                          (Dashboard.posts s) (Dashboard.userPosts s))))).
Proof.
  split; [|split; [|split]].
  - split; [reflexivity|split].
    + unfold validTypes; repeat constructor; cbn; intuition discriminate.
    + rewrite <- includes_In; apply includes_validTypes.
  - intros s; apply signup_file_checks.
  - intros s; apply profile_file_checks.
  - intros s out.
    destruct (post_image_checks f s) as (A & B & C); fold out in A, B, C.
    split; [exact A|split; [exact B|]].
    intros K L; split; [apply C; assumption|].
    intros T. subst out. unfold Dashboard.handlePostImageChange.
    apply includes_validTypes in K. rewrite K. cbn [negb].
    destruct (Z.gtb_spec (size f) (10 * 1024 * 1024)); [lia|].
    unfold Dashboard.handleCreatePost, Dashboard.setNewPost.
    cbn [fst Dashboard.newPost Dashboard.newPost_description].
    rewrite T. reflexivity.
Qed.

Lemma upload_staging_witness :
  signup_staged (sample_png (5 * 1024 * 1024)) sample_signup
    (Signup.handleFileChange (Some (sample_png (5 * 1024 * 1024)))
                             sample_signup)
  /\ signup_rejected (lit "File size must be less than 5MB") sample_signup
       (Signup.handleFileChange (Some (sample_png (5 * 1024 * 1024 + 1)))
                                sample_signup)
  /\ profile_rejected (lit "Invalid file type") sample_profile
       (Profile.handlePictureChange (Some sample_pdf) sample_profile)
  /\ post_image_staged (sample_png (10 * 1024 * 1024)) sample_draft
       (Dashboard.handlePostImageChange
          (Some (sample_png (10 * 1024 * 1024))) sample_draft)
  /\ post_image_rejected (lit "Image must be less than 10MB") sample_draft
       (Dashboard.handlePostImageChange
          (Some (sample_png (10 * 1024 * 1024 + 1))) sample_draft).
Proof.
  assert (P : forall n, recognised_kind (sample_png n))
    by (intros n; right; left; reflexivity).
  assert (Q : ~ recognised_kind sample_pdf)
    by (unfold recognised_kind; cbn; intuition discriminate).
  split; [|split; [|split; [|split]]].
  - apply (upload_staging (sample_png (5 * 1024 * 1024))); [apply P|cbn; lia].
  - apply (upload_staging (sample_png (5 * 1024 * 1024 + 1)));
      [apply P|cbn; lia].
  - apply (upload_staging sample_pdf); exact Q.
  - apply (upload_staging (sample_png (10 * 1024 * 1024)));
      [apply P|cbn; lia].
  - apply (upload_staging (sample_png (10 * 1024 * 1024 + 1)));
      [apply P|cbn; lia].
Defined.

(** ** Lists of pending calls and of cards *)

Lemma nth_error_snoc {A} (l : list A) (x : A) :
  nth_error (l ++ [x]) (List.length l) = Some x.
Proof. induction l; cbn; auto. Qed.

Lemma remove_nth_snoc {A} (l : list A) (x : A) :
  Page.remove_nth (List.length l) (l ++ [x]) = l.
Proof. induction l; cbn; congruence. Qed.

Lemma Forall_remove_nth {A} (P : A -> Prop) (n : nat) (l : list A) :
  Forall P l -> Forall P (Page.remove_nth n l).
Proof.
  intros H; revert n; induction H as [|a l Ha Hl IH]; intros [|n]; cbn;
    auto.
Qed.

Lemma nth_error_replace_nth {A} (l : list A) (k : nat) (a c : A) :
  nth_error l k = Some c -> nth_error (Page.replace_nth k a l) k = Some a.
Proof.
  revert k; induction l as [|b l IH]; intros [|k]; cbn; try discriminate;
    auto.
Qed.


Lemma filter_filter_comm {A} (f g : A -> bool) (l : list A) :
  filter f (filter g l) = filter g (filter f l).
Proof.
  induction l as [|a l IH]; cbn; auto.
  destruct (f a) eqn:F, (g a) eqn:G; cbn; rewrite ?F, ?G, IH; auto.
Qed.

Lemma filter_all {A} (f : A -> bool) (l : list A) :
  (forall a, In a l -> f a = true) -> filter f l = l.
Proof.
  induction l as [|a l IH]; cbn; intros H; auto.
  rewrite (H a) by auto; f_equal; auto.
Qed.

(** ** [userPosts] against [posts] *)

Section CollectionInvariant.

Import Dashboard Page.

Variable user_id : Z.

Lemma fetchPosts_then_consistent (l : list Post) (s : State) :
  consistent user_id (fetchPosts_then user_id l s).
Proof. reflexivity. Qed.

Lemma handleCreatePost_then_consistent (p : Post) (posts0 userPosts0 : list Post)
    (s : State) :
  userPosts0 = filter (is_mine user_id) posts0 ->
  author p = user_id \/ userPosts s = userPosts0 ->
  consistent user_id (handleCreatePost_then user_id p posts0 userPosts0 s).
Proof.
  unfold Page.consistent, handleCreatePost_then, is_mine; intros E H.
  destruct (author p =? user_id) eqn:A; cbn; rewrite A; [congruence|].
  destruct H as [H|H]; [apply Z.eqb_neq in A; contradiction|congruence].
Qed.

Lemma handleDeletePost_then_consistent (postId : Z)
    (posts0 userPosts0 : list Post) (s : State) :
  userPosts0 = filter (is_mine user_id) posts0 ->
  consistent user_id (handleDeletePost_then postId posts0 userPosts0 s).
Proof.
  unfold Page.consistent; cbn; intros ->; apply filter_filter_comm.
Qed.

Lemma settle_consistent (p : Pending) (r : Reply) (w w' : World) :
  snapshot_consistent user_id p ->
  match p, r with
  | createPost _ _ userPosts0, Resolved (post_data q) =>
      author q = user_id \/ userPosts (dashboard w) = userPosts0
  | _, _ => True
  end ->
  consistent user_id (dashboard w) ->
  settle user_id p r w = Some w' ->
  consistent user_id (dashboard w').
Proof.
  intros Hp Hr Hw E.
  destruct p, r as [[l|q|]|errs]; cbn in E; inversion E; subst; clear E;
    cbn [dashboard render setDashboard alert]; auto.
  - apply fetchPosts_then_consistent.
  - apply handleCreatePost_then_consistent; assumption.
  - destruct errs as [[|v vs]|]; exact Hw.
  - apply handleDeletePost_then_consistent, Hp.
  - apply handleDeletePost_then_consistent, Hp.
  - apply handleDeletePost_then_consistent, Hp.
Qed.

Lemma settle_pending (p : Pending) (r : Reply) (w w' : World) :
  settle user_id p r w = Some w' -> pending w' = pending w.
Proof.
  destruct p, r as [[l|q|]|errs]; cbn; intros E; inversion E; reflexivity.
Qed.

Lemma step_coherent_when (w : World) (e : Event) :
  create_reply_fits user_id w e -> coherent user_id w ->
  coherent user_id (step user_id w e).
Proof.
  intros He [Hc Hp]; unfold Page.coherent.
  destruct e as [|value|file|n result| | |postId confirmed|v k b|n r];
    cbn [step].
  - cbn; split; [exact Hc|]. apply Forall_app; split; auto.
  - split; assumption.
  - unfold handlePostImageChange.
    destruct file as [f|]; [|split; assumption].
    destruct (negb _); [split; assumption|].
    destruct (_ >? _); split; assumption.
  - destruct (nth_error (reading w) n); split; assumption.
  - split; assumption.
  - unfold handleCreatePost. destruct (negb _); cbn.
    + split; [exact Hc|]. rewrite app_nil_r; exact Hp.
    + split; [exact Hc|]. apply Forall_app; split; auto.
  - cbn. split; [exact Hc|]. apply Forall_app; split; auto.
    destruct confirmed; cbn; auto.
  - destruct (nth_error (cards v w) k) as [c|]; [|split; assumption].
    destruct (PostCard.click b (post c) (state c)) as [cb s].
    destruct v; cbn; (split; [exact Hc|]); apply Forall_app; split; auto;
      repeat constructor; destruct cb as [i [|]|i [|]]; exact I.
  - unfold Page.create_reply_fits in He.
    destruct (nth_error (pending w) n) as [p|] eqn:N; [|split; assumption].
    destruct (settle user_id p r _) as [w'|] eqn:E; [|split; assumption].
    split.
    + eapply settle_consistent; [| | |exact E]; [| |exact Hc].
      * rewrite Forall_forall in Hp. apply Hp. eapply nth_error_In, N.
      * destruct p, r as [[l|q|]|errs]; auto.
    + rewrite (settle_pending _ _ _ _ E). apply Forall_remove_nth, Hp.
Qed.

(** One event keeps the page coherent, as long as a reply with a single
    post carries a post of the viewer. *)
Lemma step_coherent (w : World) (e : Event) :
  own_post_reply user_id e -> coherent user_id w ->
  coherent user_id (step user_id w e).
Proof.
  intros He; apply step_coherent_when.
  destruct e as [| | | | | | | |n [[l|q|]|errs]]; cbn; auto.
  destruct (nth_error (pending w) n) as [[]|]; auto.
Qed.

Lemma run_coherent (es : list Event) :
  forall w, Forall (own_post_reply user_id) es -> coherent user_id w ->
            coherent user_id (run user_id w es).
Proof.
  induction es as [|e es IH]; intros w H Hw; cbn; [exact Hw|].
  inversion H; subst. apply IH; [assumption|]. apply step_coherent; assumption.
Qed.

End CollectionInvariant.

Section SequentialOperations.

Import Dashboard Page.

Variable user_id : Z.

Lemma nth_error_past {A} (l : list A) : nth_error l (List.length l) = None.
Proof. apply nth_error_None; lia. Qed.

(** An operation run to completion keeps the page coherent, whatever the
    reply is. *)
Lemma perform_coherent (w : World) (op : Operation) :
  coherent user_id w -> coherent user_id (perform user_id w op).
Proof.
  intros Hw. unfold perform.
  assert (H1 : coherent user_id (step user_id w (start op)))
    by (apply step_coherent_when; [destruct op; exact I|exact Hw]).
  destruct op as [r|r|postId confirmed r|v k b r|value|file result|];
    try exact H1; cbn [start] in *.
  - apply step_coherent_when; [|exact H1].
    cbn. rewrite nth_error_snoc. destruct r as [[]|]; exact I.
  - apply step_coherent_when; [|exact H1].
    destruct r as [[l|q|]|errs]; try exact I.
    cbn. unfold handleCreatePost. destruct (negb _); cbn.
    + rewrite app_nil_r, nth_error_past. exact I.
    + rewrite nth_error_snoc. right; reflexivity.
  - apply step_coherent_when; [|exact H1].
    destruct r as [[l|q|]|errs]; try exact I.
    cbn. destruct confirmed; cbn.
    + rewrite nth_error_snoc. exact I.
    + rewrite app_nil_r, nth_error_past. exact I.
  - apply step_coherent_when; [|exact H1].
    destruct r as [[l|q|]|errs]; try exact I.
    cbn [create_reply_fits step].
    destruct (nth_error (cards v w) k) as [c|].
    + destruct (PostCard.click b (post c) (state c)) as [cb s].
      destruct v; cbn; rewrite nth_error_snoc;
        destruct cb as [i [|]|i [|]]; exact I.
    + rewrite nth_error_past. exact I.
  - apply step_coherent_when; [exact I|exact H1].
Qed.

Lemma perform_all_coherent (ops : list Operation) :
  forall w, coherent user_id w -> coherent user_id (perform_all user_id w ops).
Proof.
  induction ops as [|op ops IH]; intros w Hw; cbn; [exact Hw|].
  apply IH, perform_coherent, Hw.
Qed.

Lemma initial_coherent : coherent user_id initial.
Proof. split; [reflexivity|constructor]. Qed.

End SequentialOperations.

(** [userPosts] is [posts] filtered by author after any sequence of
    operations each run to completion, whatever the replies. *)
Lemma sequential_operations_keep_userPosts (user_id : Z)
    (ops : list Page.Operation) :
  Page.consistent user_id
    (Page.dashboard (Page.perform_all user_id Page.initial ops)).
Proof. apply perform_all_coherent, initial_coherent. Qed.

(** And after any sequence of events, overlapping calls included, as long
    as every reply that carries one post carries a post of the viewer. *)
Lemma own_replies_keep_userPosts (user_id : Z) (es : list Page.Event) :
  Forall (Page.own_post_reply user_id) es ->
  Page.consistent user_id (Page.dashboard (Page.run user_id Page.initial es)).
Proof. intros H; apply run_coherent; [exact H|apply initial_coherent]. Qed.

Section PageProperties.

Import Dashboard Page.

(** C3 fails on the code when a [createPost] call overlaps another call and
    is answered with a post that is not the viewer's.  The form is
    submitted while the first [getPosts] is still pending; the posts arrive
    (7 by the viewer and 8); then [createPost] answers with post 43 of user
    2.  The handler writes [posts] from the empty list it closed over and
    leaves [userPosts] alone: "all" is [43] and "mine" is [7]. *)
Lemma stale_create_breaks_userPosts :
  let w := run viewer initial
             [Mounted; Input (lit "hello"); Submit;
              Settle 0 (Resolved (posts_data [sample_post; other_post]));
              Settle 0 (Resolved (post_data foreign_post))] in
  pending w = []
  /\ posts (dashboard w) = [foreign_post]
  /\ userPosts (dashboard w) = [sample_post]
  /\ userPosts (dashboard w)
     <> filter (fun p => author p =? viewer) (posts (dashboard w)).
Proof. cbn; repeat split; discriminate. Qed.

(** *** Creating a post *)

(** C4, as stated, fails: with "hello" in the form, submitting registers the
    [createPost] call and, while that call is pending, the collection is
    what it was; it holds no entry with a negative id. *)
Lemma create_inserts_nothing_before_the_reply :
  let w1 := step viewer drafted Submit in
  trim (newPost_description (newPost (dashboard drafted))) = lit "hello"
  /\ pending w1
     = [createPost (mkNewPost (lit "hello") None)
                   [sample_post; other_post] [sample_post]]
  /\ posts (dashboard w1) = [sample_post; other_post]
  /\ ~ (exists p, In p (posts (dashboard w1)) /\ id p < 0).
Proof.
  cbn; repeat split.
  intros (p & [<-|[<-|[]]] & H); cbn in H; lia.
Qed.

Lemma settle_createPost_resolved (user_id : Z) (w : World) (n : nat)
    (d : NewPost) (posts0 userPosts0 : list Post) (p : Post) :
  nth_error (pending w) n = Some (createPost d posts0 userPosts0) ->
  let w2 := step user_id w (Settle n (Resolved (post_data p))) in
  posts (dashboard w2) = p :: posts0
  /\ userPosts (dashboard w2)
     = (if author p =? user_id then p :: userPosts0
        else userPosts (dashboard w))
  /\ isCreatingPost (dashboard w2) = false
  /\ pending w2 = remove_nth n (pending w).
Proof.
  intros H. cbn [step]. rewrite H. cbn [settle].
  unfold handleCreatePost_then. destruct (author p =? user_id); repeat split.
Qed.

Lemma settle_createPost_rejected (user_id : Z) (w : World) (n : nat)
    (d : NewPost) (posts0 userPosts0 : list Post)
    (errors : option (list jsstring)) :
  nth_error (pending w) n = Some (createPost d posts0 userPosts0) ->
  let w2 := step user_id w (Settle n (Rejected errors)) in
  posts (dashboard w2) = posts (dashboard w)
  /\ userPosts (dashboard w2) = userPosts (dashboard w)
  /\ createError (dashboard w2)
     = match errors with
       | Some (v :: _) => Text v
       | Some [] => Undefined
       | None => Text (lit "Failed to create post. Please try again.")
       end
  /\ isCreatingPost (dashboard w2) = false
  /\ pending w2 = remove_nth n (pending w).
Proof.
  intros H. cbn [step]. rewrite H. cbn [settle].
  destruct errors as [[|v vs]|]; repeat split.
Qed.

(** C4, amended.  Submitting a draft whose description is not empty after
    trimming registers the [createPost] call with the draft and by itself
    leaves [posts] and [userPosts] as they are.  Whatever happens on the
    page before the call settles: when it succeeds and the two lists are
    still what they were at the submit, the post of the reply is put once
    at the head of [posts], and at the head of [userPosts] when its author
    is the viewer; when it fails, the two lists are left as they are and
    [createError] takes the first value of the reply's errors object,
    [undefined] when that object has no value, and the generic message when
    the reply has no errors object. *)
Theorem create_waits_for_the_reply (user_id : Z) (w : World) :
  truthy (trim (newPost_description (newPost (dashboard w)))) = true ->
  let s := dashboard w in
  let call := createPost (newPost s) (posts s) (userPosts s) in
  let w1 := step user_id w Submit in
  (posts (dashboard w1) = posts s
   /\ userPosts (dashboard w1) = userPosts s
   /\ isCreatingPost (dashboard w1) = true
   /\ pending w1 = pending w ++ [call])
  /\ (forall es n p,
        let w' := run user_id w1 es in
        nth_error (pending w') n = Some call ->
        posts (dashboard w') = posts s ->
        userPosts (dashboard w') = userPosts s ->
        let w2 := step user_id w' (Settle n (Resolved (post_data p))) in
        posts (dashboard w2) = p :: posts (dashboard w')
        /\ userPosts (dashboard w2)
           = (if author p =? user_id then p :: userPosts (dashboard w')
              else userPosts (dashboard w'))
        /\ isCreatingPost (dashboard w2) = false
        /\ pending w2 = remove_nth n (pending w'))
  /\ (forall es n errors,
        let w' := run user_id w1 es in
        nth_error (pending w') n = Some call ->
        let w2 := step user_id w' (Settle n (Rejected errors)) in
        posts (dashboard w2) = posts (dashboard w')
        /\ userPosts (dashboard w2) = userPosts (dashboard w')
        /\ createError (dashboard w2)
           = match errors with
             | Some (v :: _) => Text v
             | Some [] => Undefined
             | None => Text (lit "Failed to create post. Please try again.")
             end
        /\ isCreatingPost (dashboard w2) = false
        /\ pending w2 = remove_nth n (pending w')).
Proof.
  intros T s call w1.
  assert (E1 : w1 = setPending (pending w ++ [call])
                     (setDashboard
                        (setCreateError (Text (lit ""))
                           (setIsCreatingPost true s)) w)).
  { subst w1 call s; cbn [step]; unfold handleCreatePost.
    rewrite T; reflexivity. }
  split; [rewrite E1; repeat split|].
  split.
  - intros es n p w' Hn Hp Hu w2. clearbody w'.
    destruct (settle_createPost_resolved user_id w' n _ _ _ p Hn)
      as (A & B & C & D).
    subst w2. rewrite Hu in B. rewrite Hp, Hu.
    split; [exact A|]. split; [exact B|]. split; [exact C|exact D].
  - intros es n errors w' Hn w2. clearbody w'.
    exact (settle_createPost_rejected user_id w' n _ _ _ errors Hn).
Qed.

(** The form is submitted on the loaded page with "hello" typed; a like is
    clicked and its call fails before the created post arrives. *)
Lemma create_waits_for_the_reply_witness :
  let w' := run viewer (step viewer drafted Submit)
                [Click Feed 0 PostCard.Like; Settle 1 (Rejected None)] in
  truthy (trim (newPost_description (newPost (dashboard drafted)))) = true
  /\ nth_error (pending w') 0
     = Some (createPost (newPost (dashboard drafted))
                        (posts (dashboard drafted))
                        (userPosts (dashboard drafted)))
  /\ posts (dashboard w') = posts (dashboard drafted)
  /\ userPosts (dashboard w') = userPosts (dashboard drafted)
  /\ posts (dashboard
              (step viewer w' (Settle 0 (Resolved (post_data created_post)))))
     = [created_post; sample_post; other_post].
Proof.
  split; [reflexivity|]. split; [reflexivity|].
  split; [reflexivity|]. split; [reflexivity|].
  destruct (create_waits_for_the_reply viewer drafted eq_refl)
    as (_ & Q & _).
  exact (proj1 (Q [Click Feed 0 PostCard.Like; Settle 1 (Rejected None)]
                  0%nat created_post eq_refl eq_refl eq_refl)).
Defined.

(** *** Deleting a post *)

(** C5, as stated, fails: after the viewer has confirmed the deletion of
    post 7 and while [deletePost] is pending, post 7 is still in the
    collection, in both lists. *)
Lemma delete_keeps_the_post_until_the_reply :
  let w1 := step viewer loaded (Delete 7 true) in
  pending w1 = [deletePost 7 [sample_post; other_post] [sample_post]]
  /\ posts (dashboard w1) = [sample_post; other_post]
  /\ userPosts (dashboard w1) = [sample_post]
  /\ In sample_post (posts (dashboard w1)).
Proof. cbn; repeat split; auto. Qed.

Lemma settle_deletePost_resolved (user_id : Z) (w : World) (n : nat)
    (postId : Z) (posts0 userPosts0 : list Post) (d : Data) :
  nth_error (pending w) n = Some (deletePost postId posts0 userPosts0) ->
  let w2 := step user_id w (Settle n (Resolved d)) in
  posts (dashboard w2) = filter (fun p => negb (id p =? postId)) posts0
  /\ userPosts (dashboard w2)
     = filter (fun p => negb (id p =? postId)) userPosts0
  /\ alerts w2 = alerts w
  /\ pending w2 = remove_nth n (pending w).
Proof.
  intros H. cbn [step]. rewrite H. cbn [settle]. repeat split.
Qed.

Lemma settle_deletePost_rejected (user_id : Z) (w : World) (n : nat)
    (postId : Z) (posts0 userPosts0 : list Post)
    (errors : option (list jsstring)) :
  nth_error (pending w) n = Some (deletePost postId posts0 userPosts0) ->
  let w2 := step user_id w (Settle n (Rejected errors)) in
  dashboard w2 = dashboard w
  /\ feedCards w2 = feedCards w
  /\ profileCards w2 = profileCards w
  /\ alerts w2 = alerts w ++ [lit "Failed to delete post"]
  /\ pending w2 = remove_nth n (pending w).
Proof.
  intros H. cbn [step]. rewrite H. cbn [settle]. repeat split.
Qed.

(** C5, amended.  Deleting a post, once the viewer has confirmed, registers
    the [deletePost] call and by itself leaves the page as it is.  Whatever
    happens on the page before the call settles: when it succeeds and
    [posts] and [userPosts] are still what they were at the click, the posts
    with that id are taken out of both lists, the others keeping their
    order, and when no post has that id the lists are unchanged; when it
    fails, the dashboard state and the cards are left as they are, so every
    post keeps its place and its fields, and the alert "Failed to delete
    post" is shown. *)
Theorem delete_waits_for_the_reply (user_id : Z) (w : World) (postId : Z) :
  let s := dashboard w in
  let call := deletePost postId (posts s) (userPosts s) in
  let w1 := step user_id w (Delete postId true) in
  let keep := fun p => negb (id p =? postId) in
  (dashboard w1 = s /\ pending w1 = pending w ++ [call])
  /\ (forall es n d,
        let w' := run user_id w1 es in
        nth_error (pending w') n = Some call ->
        posts (dashboard w') = posts s ->
        userPosts (dashboard w') = userPosts s ->
        let w2 := step user_id w' (Settle n (Resolved d)) in
        posts (dashboard w2) = filter keep (posts (dashboard w'))
        /\ userPosts (dashboard w2) = filter keep (userPosts (dashboard w'))
        /\ alerts w2 = alerts w'
        /\ pending w2 = remove_nth n (pending w')
        /\ ((forall p, In p (posts (dashboard w')) -> id p <> postId) ->
            posts (dashboard w2) = posts (dashboard w'))
        /\ ((forall p, In p (userPosts (dashboard w')) -> id p <> postId) ->
            userPosts (dashboard w2) = userPosts (dashboard w')))
  /\ (forall es n errors,
        let w' := run user_id w1 es in
        nth_error (pending w') n = Some call ->
        let w2 := step user_id w' (Settle n (Rejected errors)) in
        dashboard w2 = dashboard w'
        /\ feedCards w2 = feedCards w'
        /\ profileCards w2 = profileCards w'
        /\ alerts w2 = alerts w' ++ [lit "Failed to delete post"]
        /\ pending w2 = remove_nth n (pending w')).
Proof.
  intros s call w1 keep.
  assert (F : forall l : list Post,
             (forall p, In p l -> id p <> postId) -> filter keep l = l).
  { intros l H; apply filter_all; intros p Hp; subst keep; cbn.
    apply negb_true_iff, Z.eqb_neq, H, Hp. }
  split; [split; reflexivity|].
  split.
  - intros es n d w' Hn Hp Hu w2. clearbody w'.
    destruct (settle_deletePost_resolved user_id w' n _ _ _ d Hn)
      as (A & B & C & D).
    subst w2. fold keep in A, B. rewrite Hp, Hu.
    split; [exact A|]. split; [exact B|]. split; [exact C|].
    split; [exact D|].
    split; intros H.
    + rewrite A. apply F. exact H.
    + rewrite B. apply F. exact H.
  - intros es n errors w' Hn w2. clearbody w'.
    exact (settle_deletePost_rejected user_id w' n _ _ _ errors Hn).
Qed.

(** Post 7 is deleted on the loaded page; a description is typed and a
    like is clicked before the call settles. *)
Lemma delete_waits_for_the_reply_witness :
  let w' := run viewer (step viewer loaded (Delete 7 true))
                [Input (lit "hello"); Click Feed 1 PostCard.Like] in
  nth_error (pending w') 0
  = Some (deletePost 7 (posts (dashboard loaded))
                     (userPosts (dashboard loaded)))
  /\ posts (dashboard w') = posts (dashboard loaded)
  /\ userPosts (dashboard w') = userPosts (dashboard loaded)
  /\ posts (dashboard (step viewer w' (Settle 0 (Resolved no_data))))
     = [other_post]
  /\ (forall p, In p (posts (dashboard loaded)) -> id p <> 99)
  /\ posts (dashboard
              (step viewer (step viewer loaded (Delete 99 true))
                    (Settle 0 (Resolved no_data))))
     = posts (dashboard loaded).
Proof.
  assert (H : forall p, In p (posts (dashboard loaded)) -> id p <> 99).
  { intros p [<-|[<-|[]]]; cbn; lia. }
  split; [reflexivity|]. split; [reflexivity|]. split; [reflexivity|].
  split.
  - destruct (delete_waits_for_the_reply viewer loaded 7) as (_ & Q & _).
    exact (proj1 (Q [Input (lit "hello"); Click Feed 1 PostCard.Like]
                    0%nat no_data eq_refl eq_refl eq_refl)).
  - split; [exact H|].
    destruct (delete_waits_for_the_reply viewer loaded 99) as (_ & Q & _).
    destruct (Q [] 0%nat no_data eq_refl eq_refl eq_refl)
      as (_ & _ & _ & _ & R & _).
    exact (R H).
Defined.

(** *** Clicking a card *)

Lemma click_callback_id (b : PostCard.Button) (p : Post) (s : PostCard.State) :
  is_react_call (id p) (dispatch (fst (PostCard.click b p s))) = true.
Proof.
  destruct b; cbn; unfold PostCard.handleLike, PostCard.handleDislike;
    [destruct (PostCard.isLiked s)|destruct (PostCard.isDisliked s)]; cbn;
    apply Z.eqb_refl.
Qed.

Lemma click_changes_state (b : PostCard.Button) (p : Post) (s : PostCard.State) :
  snd (PostCard.click b p s) <> s.
Proof.
  destruct s as [l d n m], b; cbn;
    unfold PostCard.handleLike, PostCard.handleDislike; cbn;
    destruct l, d; cbn; intros E; inversion E; lia.
Qed.

Lemma step_Click (user_id : Z) (w : World) (v : View) (k : nat)
    (b : PostCard.Button) (c : Card) :
  nth_error (cards v w) k = Some c ->
  step user_id w (Click v k b)
  = setPending
      (pending w ++ [dispatch (fst (PostCard.click b (post c) (state c)))])
      (setCards v
         (replace_nth k
            (mkCard (post c) (snd (PostCard.click b (post c) (state c))))
            (cards v w)) w).
Proof.
  intros H; cbn [step]; rewrite H.
  destruct (PostCard.click b (post c) (state c)); reflexivity.
Qed.

Lemma cards_setCards (v : View) (l : list Card) (q : list Pending) (w : World) :
  cards v (setPending q (setCards v l w)) = l
  /\ cards (other v) (setPending q (setCards v l w)) = cards (other v) w.
Proof. destruct v; split; reflexivity. Qed.

Lemma frame_setCards (v : View) (l : list Card) (q : list Pending) (w : World) :
  dashboard (setPending q (setCards v l w)) = dashboard w
  /\ pending (setPending q (setCards v l w)) = q
  /\ alerts (setPending q (setCards v l w)) = alerts w
  /\ reading (setPending q (setCards v l w)) = reading w.
Proof. destruct v; repeat split. Qed.

Lemma step_Settle_last (user_id : Z) (w : World) (q : list Pending)
    (x : Pending) (r : Reply) :
  pending w = q ++ [x] ->
  step user_id w (Settle (List.length q) r)
  = match settle user_id x r (setPending q w) with
    | Some w' => w'
    | None => w
    end.
Proof.
  intros E; cbn [step]; rewrite E, nth_error_snoc, remove_nth_snoc.
  reflexivity.
Qed.

(** C6, as stated, fails: the feed card of post 7 starts disliked with 3
    likes and 1 dislike; the like button is clicked and [likePost] is
    rejected.  The card stays liked with 4 likes and 0 dislikes; the
    failure is shown by an alert. *)
Lemma failed_like_is_not_reverted :
  let w1 := step viewer loaded (Click Feed 0 PostCard.Like) in
  let w2 := step viewer w1 (Settle 0 (Rejected None)) in
  option_map state (nth_error (feedCards loaded) 0)
  = Some (PostCard.mkState false true 3 1)
  /\ pending w1 = [likePost 7]
  /\ option_map state (nth_error (feedCards w2) 0)
     = Some (PostCard.mkState true false 4 0)
  /\ alerts w2 = [lit "Failed to update like"]
  /\ option_map state (nth_error (feedCards w2) 0)
     <> option_map state (nth_error (feedCards loaded) 0).
Proof. cbn; repeat split; discriminate. Qed.

(** C6, amended.  When the call made by a click on a card's like or
    dislike button fails, the card keeps the flags and counts the click gave
    it, which differ from those before the click, and the failure is shown
    by the alert of that button. *)
Theorem failed_reaction_keeps_the_click (user_id : Z) (w : World) (v : View)
    (k : nat) (b : PostCard.Button) (c : Card)
    (errors : option (list jsstring)) :
  nth_error (cards v w) k = Some c ->
  let w1 := step user_id w (Click v k b) in
  let w2 := step user_id w1 (Settle (List.length (pending w))
                                    (Rejected errors)) in
  let clicked := snd (PostCard.click b (post c) (state c)) in
  pending w1
  = pending w ++ [dispatch (fst (PostCard.click b (post c) (state c)))]
  /\ nth_error (cards v w1) k = Some (mkCard (post c) clicked)
  /\ nth_error (cards v w2) k = Some (mkCard (post c) clicked)
  /\ clicked <> state c
  /\ alerts w2 = alerts w ++ [failure_alert b]
  /\ pending w2 = pending w.
Proof.
  intros H w1 w2 clicked.
  pose proof (step_Click user_id w v k b c H) as E1. fold w1 clicked in E1.
  assert (C1 : nth_error (cards v w1) k = Some (mkCard (post c) clicked)).
  { rewrite E1, (proj1 (cards_setCards _ _ _ _)).
    eapply nth_error_replace_nth, H. }
  assert (E2 : w2 = alert (failure_alert b) (setPending (pending w) w1)).
  { subst w2.
    rewrite (step_Settle_last user_id w1 (pending w)
               (dispatch (fst (PostCard.click b (post c) (state c)))))
      by (rewrite E1; apply frame_setCards).
    destruct b; cbn [PostCard.click];
      unfold PostCard.handleLike, PostCard.handleDislike;
      [destruct (PostCard.isLiked (state c))
      |destruct (PostCard.isDisliked (state c))]; reflexivity. }
  split; [rewrite E1; apply frame_setCards|].
  split; [exact C1|].
  split; [rewrite E2; destruct v; exact C1|].
  split; [apply click_changes_state|].
  split; rewrite E2, E1; destruct v; reflexivity.
Qed.

Lemma failed_reaction_keeps_the_click_witness :
  nth_error (cards Feed loaded) 0 = Some (mount sample_post)
  /\ nth_error
       (cards Feed
          (step viewer (step viewer loaded (Click Feed 0 PostCard.Dislike))
                (Settle 0 (Rejected None)))) 0
     = Some (mkCard sample_post (PostCard.mkState false false 3 0)).
Proof.
  split; [reflexivity|].
  exact (proj1 (proj2 (proj2
           (failed_reaction_keeps_the_click viewer loaded Feed 0
              PostCard.Dislike (mount sample_post) None eq_refl)))).
Defined.

(** C7, as stated, fails: the like button of the feed card of post 7 is
    clicked twice while no call has settled.  The second click is applied
    (the card goes from liked with 4 likes back to not liked with 3), a
    second call is made, two calls for post 7 are pending, and nothing is
    reported. *)
Lemma second_click_is_applied_while_pending :
  let w1 := step viewer loaded (Click Feed 0 PostCard.Like) in
  let w2 := step viewer w1 (Click Feed 0 PostCard.Like) in
  pending w1 = [likePost 7]
  /\ option_map state (nth_error (feedCards w1) 0)
     = Some (PostCard.mkState true false 4 0)
  /\ pending w2 = [likePost 7; removeLike 7]
  /\ option_map state (nth_error (feedCards w2) 0)
     = Some (PostCard.mkState false false 3 0)
  /\ reacts_in_flight 7 w2 = 2%nat
  /\ alerts w2 = [].
Proof. cbn; repeat split. Qed.

(** C7, amended.  A click on a card's like or dislike button is applied
    whether or not earlier calls for that post are still pending: after any
    number of clicks in a row, none of them settled, the card is in the state
    the clicks lead to one after the other, one more call for the post is
    pending per click, and nothing has been reported.  No pending marker
    limits the calls in flight for a post. *)
Theorem every_click_is_applied (user_id : Z) (v : View) (k : nat)
    (bs : list PostCard.Button) :
  forall (w : World) (c : Card),
    nth_error (cards v w) k = Some c ->
    let w' := run user_id w (map (Click v k) bs) in
    nth_error (cards v w') k
    = Some (mkCard (post c) (PostCard.final (post c) bs (state c)))
    /\ reacts_in_flight (id (post c)) w'
       = (reacts_in_flight (id (post c)) w + List.length bs)%nat
    /\ List.length (pending w')
       = (List.length (pending w) + List.length bs)%nat
    /\ alerts w' = alerts w.
Proof.
  induction bs as [|b bs IH]; intros w c H; cbn zeta.
  - cbn. destruct c; cbn in *. rewrite H; repeat split; lia.
  - change (run user_id w (map (Click v k) (b :: bs)))
      with (run user_id (step user_id w (Click v k b)) (map (Click v k) bs)).
    cbn [List.length].
    pose proof (step_Click user_id w v k b c H) as E.
    set (w1 := step user_id w (Click v k b)) in *.
    set (c1 := mkCard (post c) (snd (PostCard.click b (post c) (state c)))).
    assert (H1 : nth_error (cards v w1) k = Some c1).
    { rewrite E, (proj1 (cards_setCards _ _ _ _)).
      eapply nth_error_replace_nth, H. }
    destruct (IH w1 c1 H1) as (A & B & C & D). cbn [post state c1] in *.
    assert (P : pending w1
                = pending w
                  ++ [dispatch (fst (PostCard.click b (post c) (state c)))])
      by (rewrite E; apply frame_setCards).
    split; [exact A|].
    split; [|split].
    + rewrite B. unfold reacts_in_flight. rewrite P, filter_app, length_app.
      cbn [filter]. rewrite click_callback_id. cbn. lia.
    + rewrite C, P, length_app. cbn. lia.
    + rewrite D, E. apply frame_setCards.
Qed.

Lemma every_click_is_applied_witness :
  nth_error (cards MyPosts loaded) 0 = Some (mount sample_post)
  /\ reacts_in_flight 7
       (run viewer loaded
            (map (Click MyPosts 0)
                 [PostCard.Like; PostCard.Like; PostCard.Dislike]))
     = 3%nat.
Proof.
  split; [reflexivity|].
  exact (proj1 (proj2
           (every_click_is_applied viewer MyPosts 0
              [PostCard.Like; PostCard.Like; PostCard.Dislike]
              loaded (mount sample_post) eq_refl))).
Defined.

(** *** Mounting the cards *)

Lemma reconcile_nil (l : list Post) : reconcile [] l = map mount l.
Proof. reflexivity. Qed.


(** *** Reactions against the transition table *)



(** *** A card across re-renders *)







(** *** The two views *)




End PageProperties.

(** * Further properties of the code *)

(** ** Cards: what the clicks leave alone *)

Section CardCounts.

Import PostCard.

Lemma click_others (b : Button) (post : Post) (s : State) :
  others_likes (snd (click b post s)) = others_likes s
  /\ others_dislikes (snd (click b post s)) = others_dislikes s.
Proof.
  unfold others_likes, others_dislikes.
  destruct b; cbn [click]; unfold handleLike, handleDislike;
    destruct (isLiked s), (isDisliked s); cbn; split; lia.
Qed.

Lemma final_others (post : Post) (bs : list Button) :
  forall s,
    others_likes (final post bs s) = others_likes s
    /\ others_dislikes (final post bs s) = others_dislikes s.
Proof.
  induction bs as [|b bs IH]; intros s; [split; reflexivity|].
  change (final post (b :: bs) s) with (final post bs (snd (click b post s))).
  destruct (IH (snd (click b post s))) as [A B].
  destruct (click_others b post s) as [C D].
  split; congruence.
Qed.

Lemma state_from_flags (s t : State) :
  isLiked s = isLiked t -> isDisliked s = isDisliked t ->
  others_likes s = others_likes t -> others_dislikes s = others_dislikes t ->
  s = t.
Proof.
  unfold others_likes, others_dislikes.
  destruct s as [l d n m], t as [l' d' n' m']; cbn.
  intros -> -> A B; f_equal; lia.
Qed.

(** X1.  Whatever buttons are clicked on a card, [likesCount] minus the
    viewer's own like and [dislikesCount] minus the viewer's own dislike
    stay what they were; so the state of the card depends on the clicks only
    through the two flags they end with. *)
Theorem clicks_conserve_the_others (post : Post) (bs bs' : list Button)
    (s : State) :
  others_likes (final post bs s) = others_likes s
  /\ others_dislikes (final post bs s) = others_dislikes s
  /\ (isLiked (final post bs s) = isLiked (final post bs' s) ->
      isDisliked (final post bs s) = isDisliked (final post bs' s) ->
      final post bs s = final post bs' s).
Proof.
  destruct (final_others post bs s) as [A B].
  destruct (final_others post bs' s) as [A' B'].
  split; [exact A|]. split; [exact B|].
  intros L D; apply state_from_flags; congruence.
Qed.

Lemma clicks_conserve_the_others_witness :
  let s := useState sample_post in
  isLiked (final sample_post [Like; Dislike; Like] s)
  = isLiked (final sample_post [Like] s)
  /\ final sample_post [Like; Dislike; Like] s = final sample_post [Like] s.
Proof.
  split; [reflexivity|].
  apply (clicks_conserve_the_others sample_post [Like; Dislike; Like] [Like]
           (useState sample_post)); reflexivity.
Defined.

Lemma states_final (post : Post) (bs : list Button) :
  forall s t, In t (states post bs s) ->
              exists bs0, t = final post bs0 s.
Proof.
  induction bs as [|b bs IH]; intros s t; cbn [states In].
  - intros [<-|[]]; exists []; reflexivity.
  - intros [<-|H]; [exists []; reflexivity|].
    destruct (IH _ _ H) as [bs0 ->]. exists (b :: bs0); reflexivity.
Qed.

(** X2.  When the counts a card starts with include the viewer's own
    reaction (at least one like if the viewer likes the post, at least one
    dislike if the viewer dislikes it), no sequence of clicks makes a
    count negative. *)
Theorem counts_never_negative (post : Post) (bs : list Button) (s : State) :
  0 <= others_likes s -> 0 <= others_dislikes s ->
  Forall (fun t => 0 <= likesCount t /\ 0 <= dislikesCount t)
         (states post bs s).
Proof.
  intros L D; apply Forall_forall; intros t Ht.
  destruct (states_final post bs s t Ht) as [bs0 ->].
  destruct (final_others post bs0 s) as [A B].
  unfold others_likes, others_dislikes in *.
  destruct (isLiked (final post bs0 s)), (isDisliked (final post bs0 s));
    split; lia.
Qed.

Lemma counts_never_negative_witness :
  0 <= others_likes (useState sample_post)
  /\ Forall (fun t => 0 <= likesCount t /\ 0 <= dislikesCount t)
            (states sample_post [Dislike; Like; Like; Dislike]
                    (useState sample_post)).
Proof.
  split; [cbn; lia|].
  apply (counts_never_negative sample_post [Dislike; Like; Like; Dislike]
           (useState sample_post)); cbn; lia.
Defined.

End CardCounts.

(** ** Descriptions made of white space *)

Lemma trimStart_nil (s : jsstring) : trimStart s = [] <-> blank s.
Proof.
  unfold blank; induction s as [|c s IH]; cbn.
  - split; auto.
  - destruct (is_js_space c) eqn:E.
    + rewrite IH; split; intros H; [constructor; auto|inversion H; auto].
    + split; [discriminate|]. intros H; inversion H; congruence.
Qed.

Lemma trimStart_blank_or_kept (s : jsstring) :
  blank s \/ (exists c t, trimStart s = c :: t /\ is_js_space c = false).
Proof.
  induction s as [|c s IH]; cbn; [left; constructor|].
  destruct (is_js_space c) eqn:E.
  - destruct IH as [H|H]; [left; constructor; auto|right; exact H].
  - right; eauto.
Qed.

Lemma trim_nil (s : jsstring) : trim s = [] <-> blank s.
Proof.
  unfold trim. split.
  - intros H. destruct (trimStart_blank_or_kept s) as [B|(c & t & E & N)];
      [exact B|].
    rewrite E in H. apply (f_equal (@rev Z)) in H.
    rewrite rev_involutive in H. cbn [rev] in H.
    apply trimStart_nil in H. unfold blank in H.
    rewrite Forall_forall in H.
    assert (is_js_space c = true)
      by (apply H, in_or_app; right; left; reflexivity).
    congruence.
  - intros B. apply trimStart_nil in B. rewrite B. reflexivity.
Qed.

Lemma truthy_trim (s : jsstring) :
  truthy (trim s) = false <-> blank s.
Proof.
  rewrite <- trim_nil. destruct (trim s); cbn; split; congruence.
Qed.

Section CreateForm.

Import Dashboard Page.

(** X3.  [handleCreatePost] turns a draft down exactly when its description
    consists of white-space code units only (the empty description
    included): it then makes no call and changes nothing but [createError].
    A description with any other code unit in it is sent as typed, untrimmed,
    together with the image of the draft. *)
Theorem blank_description_is_refused (s : State) :
  (blank (newPost_description (newPost s)) ->
   handleCreatePost s
   = (setCreateError (Text (lit "Post description is required")) s, None))
  /\ (~ blank (newPost_description (newPost s)) ->
      snd (handleCreatePost s)
      = Some (createPost (newPost s) (posts s) (userPosts s))
      /\ Api.createPost (newPost s)
         = (lit "description", Api.text_part (newPost_description (newPost s)))
           :: match newPost_image (newPost s) with
              | Some f => [(lit "image", Api.file_part f)]
              | None => []
              end).
Proof.
  unfold handleCreatePost; split; intros H.
  - apply truthy_trim in H. rewrite H. reflexivity.
  - destruct (truthy (trim (newPost_description (newPost s)))) eqn:T.
    + split; [reflexivity|]. unfold Api.createPost.
      destruct (newPost_image (newPost s)); reflexivity.
    + apply truthy_trim in T. contradiction.
Qed.

Lemma blank_description_is_refused_witness :
  blank (lit "  ")
  /\ snd (handleCreatePost (handlePostInputChange (lit "  ") Dashboard.initial)) = None
  /\ ~ blank (lit " hi ")
  /\ snd (handleCreatePost (handlePostInputChange (lit " hi ") Dashboard.initial))
     = Some (createPost (mkNewPost (lit " hi ") None) [] []).
Proof.
  assert (B : blank (lit "  ")) by (repeat constructor).
  assert (N : ~ blank (lit " hi ")).
  { intros H. inversion H as [|? ? _ K]. inversion K as [|? ? L _].
    discriminate L. }
  split; [exact B|]. split.
  - exact (f_equal snd
             (proj1 (blank_description_is_refused
                       (handlePostInputChange (lit "  ") Dashboard.initial)) B)).
  - split; [exact N|].
    exact (proj1 (proj2 (blank_description_is_refused
                           (handlePostInputChange (lit " hi ") Dashboard.initial)) N)).
Defined.

(** X4.  A successful create empties the form: the draft and the preview
    are reset, so submitting again straight away makes no call and shows
    "Post description is required".  A failed create keeps the draft, and
    submitting again sends the same draft once more. *)
Theorem create_resets_or_keeps_the_draft (user_id : Z) (w : World) :
  ~ blank (newPost_description (newPost (dashboard w))) ->
  let k := List.length (pending w) in
  let w1 := step user_id w Submit in
  (forall p,
      let w2 := step user_id w1 (Settle k (Resolved (post_data p))) in
      let w3 := step user_id w2 Submit in
      newPost (dashboard w2) = mkNewPost (lit "") None
      /\ previewImage (dashboard w2) = None
      /\ pending w3 = pending w
      /\ createError (dashboard w3)
         = Text (lit "Post description is required"))
  /\ (forall errors,
        let w2 := step user_id w1 (Settle k (Rejected errors)) in
        let w3 := step user_id w2 Submit in
        newPost (dashboard w2) = newPost (dashboard w)
        /\ previewImage (dashboard w2) = previewImage (dashboard w)
        /\ pending w3
           = pending w ++ [createPost (newPost (dashboard w))
                                      (posts (dashboard w))
                                      (userPosts (dashboard w))]).
Proof.
  intros B k w1.
  assert (T : truthy (trim (newPost_description (newPost (dashboard w))))
              = true).
  { destruct (truthy _) eqn:T; [reflexivity|].
    apply truthy_trim in T; contradiction. }
  assert (E1 : pending w1
               = pending w ++ [createPost (newPost (dashboard w))
                                          (posts (dashboard w))
                                          (userPosts (dashboard w))])
    by (subst w1; cbn [step]; unfold handleCreatePost; rewrite T;
        reflexivity).
  assert (D1 : dashboard w1
               = setCreateError (Text (lit ""))
                   (setIsCreatingPost true (dashboard w))).
  { subst w1; cbn [step]; unfold handleCreatePost; rewrite T; reflexivity. }
  split.
  - intros p w2 w3.
    assert (E2 : w2 = render (setDashboard
                                (handleCreatePost_then user_id p
                                   (posts (dashboard w))
                                   (userPosts (dashboard w)) (dashboard w1))
                                (setPending (pending w) w1))).
    { subst w2 k. rewrite (step_Settle_last user_id w1 _ _ _ E1).
      reflexivity. }
    assert (N2 : newPost (dashboard w2) = mkNewPost (lit "") None
                 /\ previewImage (dashboard w2) = None
                 /\ pending w2 = pending w).
    { rewrite E2. unfold handleCreatePost_then.
      destruct (author p =? user_id); repeat split. }
    destruct N2 as (N2 & V2 & Q2).
    assert (E3 : w3 = setPending (pending w2 ++ [])
                        (setDashboard
                           (setCreateError
                              (Text (lit "Post description is required"))
                              (dashboard w2)) w2)).
    { subst w3. cbn [step]. unfold handleCreatePost. rewrite N2.
      reflexivity. }
    clearbody w3 w2. subst w3.
    cbn [pending dashboard setPending setDashboard createError
         setCreateError].
    rewrite app_nil_r. repeat split; assumption.
  - intros errors w2 w3.
    assert (E2 : w2 = setDashboard
                        (handleCreatePost_catch errors (dashboard w1))
                        (setPending (pending w) w1)).
    { subst w2 k. rewrite (step_Settle_last user_id w1 _ _ _ E1).
      reflexivity. }
    assert (L2 : newPost (dashboard w2) = newPost (dashboard w)
                 /\ posts (dashboard w2) = posts (dashboard w)
                 /\ userPosts (dashboard w2) = userPosts (dashboard w)
                 /\ previewImage (dashboard w2) = previewImage (dashboard w)
                 /\ pending w2 = pending w).
    { rewrite E2. cbn [dashboard setDashboard pending setPending].
      rewrite D1. destruct errors as [[|v vs]|]; repeat split. }
    destruct L2 as (N2 & P2 & U2 & V2 & Q2).
    assert (E3 : pending w3
                 = pending w2 ++ [createPost (newPost (dashboard w2))
                                             (posts (dashboard w2))
                                             (userPosts (dashboard w2))]).
    { subst w3. cbn [step]. unfold handleCreatePost. rewrite N2, T.
      reflexivity. }
    clearbody w3 w2.
    rewrite E3, N2, P2, U2, Q2. repeat split; assumption.
Qed.

Lemma create_resets_or_keeps_the_draft_witness :
  ~ blank (newPost_description (newPost (dashboard drafted)))
  /\ newPost (dashboard
                (step viewer (step viewer drafted Submit)
                      (Settle 0 (Resolved (post_data created_post)))))
     = mkNewPost (lit "") None
  /\ newPost (dashboard
                (step viewer (step viewer drafted Submit)
                      (Settle 0 (Rejected None))))
     = mkNewPost (lit "hello") None.
Proof.
  assert (N : ~ blank (newPost_description (newPost (dashboard drafted)))).
  { intros H. inversion H as [|? ? H1 _]. discriminate H1. }
  split; [exact N|].
  destruct (create_resets_or_keeps_the_draft viewer drafted N) as [A B].
  split; [exact (proj1 (A created_post))|exact (proj1 (B None))].
Defined.

End CreateForm.

(** ** Deleting and fetching *)

Section Lists.

Import Dashboard Page.

Lemma step_Delete (user_id : Z) (w : World) (postId : Z) :
  step user_id w (Delete postId true)
  = setPending
      (pending w ++ [deletePost postId (posts (dashboard w))
                                (userPosts (dashboard w))]) w.
Proof. reflexivity. Qed.

Lemma delete_settled (user_id : Z) (w : World) (postId : Z) (d : Data)
    (q : list Pending) (posts0 userPosts0 : list Post) :
  pending w = q ++ [deletePost postId posts0 userPosts0] ->
  let w' := step user_id w (Settle (List.length q) (Resolved d)) in
  posts (dashboard w') = filter (fun p => negb (id p =? postId)) posts0
  /\ userPosts (dashboard w')
     = filter (fun p => negb (id p =? postId)) userPosts0
  /\ pending w' = q.
Proof.
  intros E w'; subst w'. rewrite (step_Settle_last user_id w _ _ _ E).
  repeat split.
Qed.

Lemma filter_idem {A} (f : A -> bool) (l : list A) :
  filter f (filter f l) = filter f l.
Proof.
  apply filter_all. intros a H. apply filter_In in H. tauto.
Qed.

(** X5.  Once a confirmed deletion has succeeded, no post with that id is
    left in [posts] or [userPosts]; deleting the same id again, with the
    same success, leaves both lists as they are. *)
Theorem deleted_post_is_gone (user_id : Z) (w : World) (postId : Z)
    (d d' : Data) :
  let op := op_handleDeletePost postId true (Resolved d) in
  let op' := op_handleDeletePost postId true (Resolved d') in
  let w1 := perform user_id w op in
  let w2 := perform user_id w1 op' in
  (forall p, In p (posts (dashboard w1)) -> id p <> postId)
  /\ (forall p, In p (userPosts (dashboard w1)) -> id p <> postId)
  /\ posts (dashboard w2) = posts (dashboard w1)
  /\ userPosts (dashboard w2) = userPosts (dashboard w1).
Proof.
  intros op op' w1 w2.
  assert (S1 : forall v r,
             let v1 := perform user_id v
                         (op_handleDeletePost postId true (Resolved r)) in
             posts (dashboard v1)
             = filter (fun p => negb (id p =? postId)) (posts (dashboard v))
             /\ userPosts (dashboard v1)
                = filter (fun p => negb (id p =? postId))
                         (userPosts (dashboard v))).
  { intros v r v1; subst v1. unfold perform. cbn [start].
    rewrite step_Delete.
    destruct (delete_settled user_id
                (setPending
                   (pending v ++ [deletePost postId (posts (dashboard v))
                                             (userPosts (dashboard v))]) v)
                postId r (pending v) (posts (dashboard v))
                (userPosts (dashboard v)) eq_refl) as (A & B & _).
    split; assumption. }
  assert (P1 : posts (dashboard w1)
               = filter (fun p => negb (id p =? postId)) (posts (dashboard w)))
    by exact (proj1 (S1 w d)).
  assert (U1 : userPosts (dashboard w1)
               = filter (fun p => negb (id p =? postId))
                        (userPosts (dashboard w)))
    by exact (proj2 (S1 w d)).
  assert (P2 : posts (dashboard w2)
               = filter (fun p => negb (id p =? postId)) (posts (dashboard w1)))
    by exact (proj1 (S1 w1 d')).
  assert (U2 : userPosts (dashboard w2)
               = filter (fun p => negb (id p =? postId))
                        (userPosts (dashboard w1)))
    by exact (proj2 (S1 w1 d')).
  clearbody w2 w1.
  assert (G : forall l p,
             In p (filter (fun p => negb (id p =? postId)) l) ->
             id p <> postId).
  { intros l p H. apply filter_In in H. destruct H as [_ H].
    apply negb_true_iff, Z.eqb_neq in H. exact H. }
  split; [intros p; rewrite P1; apply G|].
  split; [intros p; rewrite U1; apply G|].
  rewrite P2, U2, P1, U1, !filter_idem. split; reflexivity.
Qed.



(** X7.  A fetch that fails leaves [posts] and [userPosts] as they were,
    shows "Failed to load posts. Please try again." and ends the loading
    state; a fetch that succeeds replaces [posts] by the list received and
    [userPosts] by its posts of the viewer, with the error of an earlier
    failure cleared. *)
Theorem fetch_replaces_or_retains (user_id : Z) (w : World) :
  (forall errors,
      let w' := perform user_id w (op_fetchPosts (Rejected errors)) in
      posts (dashboard w') = posts (dashboard w)
      /\ userPosts (dashboard w') = userPosts (dashboard w)
      /\ error (dashboard w')
         = lit "Failed to load posts. Please try again."
      /\ loading (dashboard w') = false)
  /\ (forall l,
        let w' := perform user_id w (op_fetchPosts (Resolved (posts_data l))) in
        posts (dashboard w') = l
        /\ userPosts (dashboard w') = filter (fun p => author p =? user_id) l
        /\ (forall p, In p (userPosts (dashboard w')) ->
                      In p l /\ author p = user_id)
        /\ error (dashboard w') = lit ""
        /\ loading (dashboard w') = false
        /\ feedCards w' = map mount l).
Proof.
  assert (E : pending (step user_id w Mounted) = pending w ++ [getPosts])
    by reflexivity.
  split.
  - intros errors w'; subst w'. unfold perform. cbn [start].
    rewrite (step_Settle_last user_id _ _ _ _ E). repeat split.
  - intros l w'; subst w'. unfold perform. cbn [start].
    rewrite (step_Settle_last user_id _ _ _ _ E).
    split; [reflexivity|]. split; [reflexivity|].
    split; [|repeat split].
    intros p H. cbn in H. apply filter_In in H. destruct H as [H1 H2].
    split; [exact H1|]. apply Z.eqb_eq, H2.
Qed.

End Lists.

(** ** The cards on the page *)

Section CardsAndLists.

Import Dashboard Page.

Lemma map_post_reconcile (old : list Card) (l : list Post) :
  map post (reconcile old l) = l.
Proof.
  unfold reconcile. rewrite map_map. rewrite <- (map_id l) at 2.
  apply map_ext. intros p. destruct (find _ old); reflexivity.
Qed.

Lemma map_post_replace_nth (l : list Card) (k : nat) (c : Card)
    (s : PostCard.State) :
  nth_error l k = Some c ->
  map post (replace_nth k (mkCard (post c) s) l) = map post l.
Proof.
  revert k; induction l as [|x l IH]; intros [|k] H; cbn in *;
    try discriminate.
  - inversion H; reflexivity.
  - f_equal; apply IH, H.
Qed.

Lemma render_mirrors (w : World) : cards_mirror_lists (render w).
Proof.
  unfold cards_mirror_lists; cbn. split; [apply map_post_reconcile|].
  destruct (loading (dashboard w)); [reflexivity|apply map_post_reconcile].
Qed.

Lemma step_mirrors (user_id : Z) (w : World) (e : Event) :
  cards_mirror_lists w -> cards_mirror_lists (step user_id w e).
Proof.
  intros M.
  destruct e as [|value|file|n result| | |postId confirmed|v k b|n r];
    cbn [step].
  - apply render_mirrors.
  - exact M.
  - unfold handlePostImageChange.
    destruct file as [f|]; [|exact M].
    destruct (negb _); [exact M|]. destruct (_ >? _); exact M.
  - destruct (nth_error (reading w) n); exact M.
  - exact M.
  - unfold handleCreatePost. destruct (negb _); exact M.
  - exact M.
  - destruct (nth_error (cards v w) k) as [c|] eqn:H; [|exact M].
    destruct (PostCard.click b (post c) (state c)) as [cb s].
    destruct M as [M1 M2]. unfold cards_mirror_lists.
    destruct v; cbn in *.
    + split; [exact M1|].
      destruct (loading (dashboard w)).
      * rewrite M2 in H. destruct k; discriminate.
      * rewrite (map_post_replace_nth _ _ _ _ H). exact M2.
    + split; [|exact M2].
      rewrite (map_post_replace_nth _ _ _ _ H). exact M1.
  - destruct (nth_error (pending w) n) as [p|]; [|exact M].
    destruct p, r as [[l|q|]|errors]; cbn [settle];
      try exact M; try apply render_mirrors.
    destruct errors as [[|x xs]|]; exact M.
Qed.

(** X8.  Whatever happens on the page, "My Posts" shows one card per
    element of [userPosts], in that order, and the feed one card per
    element of [posts], or no card while the posts are loading; every card
    carries the post of its place in the list. *)
Theorem cards_follow_the_lists (user_id : Z) (es : list Event) :
  cards_mirror_lists (run user_id initial es).
Proof.
  unfold run.
  assert (G : forall w, cards_mirror_lists w ->
                        cards_mirror_lists (fold_left (step user_id) es w)).
  { induction es as [|e es IH]; intros w M; [exact M|].
    apply IH, step_mirrors, M. }
  apply G. split; reflexivity.
Qed.

Lemma perform_mirrors (user_id : Z) (w : World) (op : Operation) :
  cards_mirror_lists w -> cards_mirror_lists (perform user_id w op).
Proof.
  intros M. unfold perform.
  destruct op; repeat apply step_mirrors; exact M.
Qed.

Lemma perform_all_mirrors (user_id : Z) (ops : list Operation) :
  forall w, cards_mirror_lists w ->
            cards_mirror_lists (perform_all user_id w ops).
Proof.
  induction ops as [|op ops IH]; intros w M; [exact M|].
  apply IH, perform_mirrors, M.
Qed.

(** X9.  After any sequence of operations each run to completion, every
    card under "My Posts" shows the delete button, and a card of the feed
    shows it exactly when its post is one of [userPosts]. *)
Theorem delete_button_on_own_posts (user_id : Z) (ops : list Operation) :
  let w := perform_all user_id initial ops in
  (forall c, In c (profileCards w) -> isAuthor user_id (post c) = true)
  /\ (forall c, In c (feedCards w) ->
                (isAuthor user_id (post c) = true
                 <-> In (post c) (userPosts (dashboard w)))).
Proof.
  intros w.
  assert (M : cards_mirror_lists w)
    by (apply perform_all_mirrors; split; reflexivity).
  assert (C : consistent user_id (dashboard w))
    by apply sequential_operations_keep_userPosts.
  destruct M as [M1 M2]. unfold consistent in C.
  assert (A : forall p, isAuthor user_id p = is_mine user_id p).
  { intros p; unfold isAuthor, is_mine; apply Z.eqb_sym. }
  split.
  - intros c H. apply (in_map post) in H. rewrite M1, C in H.
    apply filter_In in H. rewrite A. tauto.
  - intros c H. rewrite C, filter_In, A.
    destruct (loading (dashboard w)).
    + rewrite M2 in H. destruct H.
    + apply (in_map post) in H. rewrite M2 in H. tauto.
Qed.

End CardsAndLists.

(** ** The patterns of the validators *)

Section Patterns.

Import Regex.

Lemma matches_nil_nullable (r : re) (s : jsstring) :
  matches r s -> s = [] -> nullable r = true.
Proof.
  induction 1; intros E; cbn; try reflexivity; try discriminate.
  - apply app_eq_nil in E. destruct E. rewrite IHmatches1, IHmatches2; auto.
  - rewrite IHmatches; auto.
  - rewrite IHmatches; auto using orb_true_r.
Qed.

Lemma nullable_matches_nil (r : re) : nullable r = true -> matches r [].
Proof.
  induction r; cbn; intros H; try discriminate.
  - constructor.
  - apply andb_true_iff in H. destruct H.
    change (@nil Z) with (@nil Z ++ []). constructor; auto.
  - apply orb_true_iff in H. destruct H; [apply m_alt_l|apply m_alt_r]; auto.
  - constructor.
Qed.

Lemma matches_deriv (r : re) (t : jsstring) :
  matches r t -> forall c s, t = c :: s -> matches (deriv c r) s.
Proof.
  induction 1; intros c0 s0 E; try discriminate.
  - inversion E; subst. cbn. rewrite H. constructor.
  - cbn [deriv]. destruct s1 as [|c1 s1].
    + cbn in E. subst s2.
      rewrite (matches_nil_nullable r1 [] H eq_refl).
      apply m_alt_r. apply IHmatches2. reflexivity.
    + cbn in E. inversion E; subst.
      assert (M : matches (Seq (deriv c0 r1) r2) (s1 ++ s2))
        by (constructor; [apply IHmatches1; reflexivity|assumption]).
      destruct (nullable r1); [apply m_alt_l|]; exact M.
  - cbn. apply m_alt_l. auto.
  - cbn. apply m_alt_r. auto.
  - inversion E; subst. cbn [deriv]. constructor; [|assumption].
    apply IHmatches1. reflexivity.
Qed.

Lemma deriv_matches (r : re) :
  forall c s, matches (deriv c r) s -> matches r (c :: s).
Proof.
  induction r; intros c s H; cbn [deriv] in H.
  - inversion H.
  - inversion H.
  - destruct (f c) eqn:F; inversion H; subst. constructor; exact F.
  - destruct (nullable r1) eqn:N.
    + inversion H; subst.
      * match goal with K : matches (Seq _ _) _ |- _ => inversion K; subst end.
        change (c :: s1 ++ s2) with ((c :: s1) ++ s2).
        constructor; auto.
      * change (c :: s) with ([] ++ c :: s).
        constructor; [apply nullable_matches_nil, N|auto].
    + inversion H; subst.
      change (c :: s1 ++ s2) with ((c :: s1) ++ s2). constructor; auto.
  - inversion H; subst; [apply m_alt_l|apply m_alt_r]; auto.
  - inversion H; subst. constructor; auto.
Qed.

(** Running a pattern by derivatives decides whether it matches. *)
Lemma test_matches (s : jsstring) :
  forall r, test r s = true <-> matches r s.
Proof.
  induction s as [|c s IH]; intros r; cbn [test].
  - split; [apply nullable_matches_nil|].
    intros H; eapply matches_nil_nullable; eauto.
  - rewrite IH. split; [apply deriv_matches|].
    intros H; eapply matches_deriv; eauto.
Qed.

Lemma matches_Seq (r1 r2 : re) (s : jsstring) :
  matches (Seq r1 r2) s
  <-> exists s1 s2, s = s1 ++ s2 /\ matches r1 s1 /\ matches r2 s2.
Proof.
  split.
  - intros H; inversion H; subst; eauto.
  - intros (s1 & s2 & -> & A & B); constructor; assumption.
Qed.

Lemma matches_Class (f : Z -> bool) (s : jsstring) :
  matches (Class f) s <-> exists c, s = [c] /\ f c = true.
Proof.
  split.
  - intros H; inversion H; subst; eauto.
  - intros (c & -> & A); constructor; assumption.
Qed.

Lemma matches_Star_Class (f : Z -> bool) (s : jsstring) :
  matches (Star (Class f)) s <-> Forall (fun c => f c = true) s.
Proof.
  split.
  - remember (Star (Class f)) as r eqn:R. intros H.
    induction H; inversion R; subst; [constructor|].
    inversion H; subst. cbn. constructor; auto.
  - induction 1 as [|c s F _ IH]; [constructor|].
    change (c :: s) with (c :: [] ++ s). constructor; [|exact IH].
    constructor; exact F.
Qed.

Lemma matches_Plus_Class (f : Z -> bool) (s : jsstring) :
  matches (Plus (Class f)) s <-> s <> [] /\ Forall (fun c => f c = true) s.
Proof.
  unfold Plus. rewrite matches_Seq. split.
  - intros (s1 & s2 & -> & A & B).
    apply matches_Class in A. destruct A as (c & -> & F).
    apply matches_Star_Class in B. cbn. split; [discriminate|].
    constructor; assumption.
  - intros [N F]. destruct s as [|c s]; [contradiction|].
    inversion F; subst. exists [c], s. split; [reflexivity|].
    split; [constructor; assumption|apply matches_Star_Class; assumption].
Qed.

Lemma not_space_or_at_spec (c : Z) :
  not_space_or_at c = true <-> is_js_space c = false /\ c <> 64.
Proof.
  unfold not_space_or_at. rewrite negb_true_iff, orb_false_iff, Z.eqb_neq.
  reflexivity.
Qed.

Lemma matches_address_part (s : jsstring) :
  matches (Plus (Class not_space_or_at)) s <-> address_part s.
Proof.
  rewrite matches_Plus_Class. unfold address_part.
  rewrite !Forall_forall.
  split; intros [N F]; (split; [exact N|]); intros c H;
    apply not_space_or_at_spec, F, H.
Qed.

(** X10.  The e-mail pattern of the sign-up and login forms accepts exactly
    the texts of the shape [a@b.c] where each of [a], [b] and [c] is a
    non-empty run of code units that are neither white space nor "@"
    (dots are allowed inside the three parts). *)
Theorem email_pattern_accepts (s : jsstring) :
  test email_pattern s = true
  <-> exists a b c,
        s = a ++ 64 :: b ++ 46 :: c
        /\ address_part a /\ address_part b /\ address_part c.
Proof.
  rewrite test_matches. unfold email_pattern.
  rewrite matches_Seq. split.
  - intros (a & t1 & -> & A & H1).
    apply matches_Seq in H1. destruct H1 as (x & t2 & -> & X & H2).
    apply matches_Seq in H2. destruct H2 as (b & t3 & -> & B & H3).
    apply matches_Seq in H3. destruct H3 as (y & c & -> & Y & C).
    apply matches_Class in X. destruct X as (cx & -> & Ex).
    apply matches_Class in Y. destruct Y as (cy & -> & Ey).
    apply Z.eqb_eq in Ex, Ey. subst cx cy.
    exists a, b, c. split; [reflexivity|].
    repeat split; apply matches_address_part; assumption.
  - intros (a & b & c & -> & A & B & C).
    exists a, (64 :: b ++ 46 :: c). split; [reflexivity|].
    split; [apply matches_address_part, A|].
    apply matches_Seq. exists [64], (b ++ 46 :: c).
    split; [reflexivity|]. split; [constructor; reflexivity|].
    apply matches_Seq. exists b, (46 :: c).
    split; [reflexivity|]. split; [apply matches_address_part, B|].
    apply matches_Seq. exists [46], c.
    split; [reflexivity|]. split; [constructor; reflexivity|].
    apply matches_address_part, C.
Qed.

Lemma email_pattern_accepts_witness :
  address_part (lit "ann") /\ address_part (lit "example")
  /\ address_part (lit "org")
  /\ test email_pattern (lit "ann@example.org") = true.
Proof.
  assert (P : forall s : jsstring,
             s <> [] ->
             forallb (fun c => negb (is_js_space c) && negb (c =? 64)) s
             = true ->
             address_part s).
  { intros s N H; split; [exact N|]. rewrite forallb_forall in H.
    apply Forall_forall; intros c Hc. specialize (H c Hc).
    apply andb_true_iff in H. destruct H as [A B].
    apply negb_true_iff in A, B. split; [exact A|apply Z.eqb_neq, B]. }
  assert (A : address_part (lit "ann")) by (apply P; [discriminate|reflexivity]).
  assert (B : address_part (lit "example"))
    by (apply P; [discriminate|reflexivity]).
  assert (C : address_part (lit "org")) by (apply P; [discriminate|reflexivity]).
  repeat (split; [assumption|]).
  apply (proj2 (email_pattern_accepts (lit "ann@example.org"))).
  exists (lit "ann"), (lit "example"), (lit "org").
  split; [reflexivity|]. split; [exact A|split; [exact B|exact C]].
Defined.

Lemma lookahead_any_has (cls : Z -> bool) (s : jsstring) :
  lookahead_any cls s = true -> has cls s.
Proof.
  unfold has. induction s as [|c s IH]; cbn; [discriminate|].
  destruct (cls c) eqn:E; cbn.
  - intros _. left. exact E.
  - intros H. apply andb_true_iff in H. right. apply IH, H.
Qed.

Lemma has_lookahead_any (cls : Z -> bool) (s : jsstring) :
  one_line s -> has cls s -> lookahead_any cls s = true.
Proof.
  unfold has, one_line. intros L H. induction H as [c s E|c s H IH]; cbn.
  - rewrite E. reflexivity.
  - inversion L; subst. rewrite (IH H3).
    match goal with K : is_line_terminator c = false |- _ => rewrite K end.
    apply orb_true_r.
Qed.

(** X11.  The password pattern accepts a text only if it holds a letter
    a-z, a letter A-Z and a digit 0-9; for a text of one line (no line
    terminator among its code units) that is also enough. *)
Theorem password_pattern_wants_three_classes (s : jsstring) :
  (password_test s = true -> has lower s /\ has upper s /\ has digit s)
  /\ (one_line s -> has lower s -> has upper s -> has digit s ->
      password_test s = true).
Proof.
  split.
  - induction s as [|c s IH]; cbn [password_test].
    + cbn. discriminate.
    + intros H. apply orb_true_iff in H. destruct H as [H|H].
      * apply andb_true_iff in H. destruct H as [H D].
        apply andb_true_iff in H. destruct H as [L U].
        repeat split; apply lookahead_any_has; assumption.
      * destruct (IH H) as (L & U & D).
        repeat split; right; assumption.
  - intros O L U D. destruct s as [|c s]; [inversion L|].
    cbn [password_test].
    rewrite (has_lookahead_any lower _ O L), (has_lookahead_any upper _ O U),
      (has_lookahead_any digit _ O D).
    reflexivity.
Qed.

Lemma password_pattern_wants_three_classes_witness :
  password_test (lit "Passw0rd") = true
  /\ has lower (lit "Passw0rd")
  /\ one_line (lit "abcDEF12")
  /\ password_test (lit "abcDEF12") = true.
Proof.
  assert (O : one_line (lit "abcDEF12")) by (repeat constructor).
  split; [reflexivity|]. split; [|split; [exact O|]].
  - exact (proj1 (proj1 (password_pattern_wants_three_classes
                           (lit "Passw0rd")) eq_refl)).
  - apply (proj2 (password_pattern_wants_three_classes (lit "abcDEF12")) O).
    + left; reflexivity.
    + do 3 right; left; reflexivity.
    + do 6 right; left; reflexivity.
Defined.

End Patterns.

(** ** The sign-up and login forms *)

Section Forms.

Lemma assign_not_nil (k v : jsstring) (o : object) : assign k v o <> [].
Proof.
  destruct o as [|[k' v'] o]; cbn; [discriminate|].
  destruct (jsstring_eqb k k'); discriminate.
Qed.

Lemma if_assign_nil (c : bool) (k v : jsstring) (e : object) :
  (if c then assign k v e else e) = [] <-> c = false /\ e = [].
Proof.
  destruct c; split; try tauto.
  - intros H; apply assign_not_nil in H; contradiction.
  - intros [H _]; discriminate.
Qed.

Lemma if2_assign_nil (c1 c2 : bool) (k v v' : jsstring) (e : object) :
  (if c1 then assign k v e else if c2 then assign k v' e else e) = []
  <-> c1 = false /\ c2 = false /\ e = [].
Proof.
  destruct c1; [|rewrite if_assign_nil; tauto].
  split; [intros H; apply assign_not_nil in H; contradiction|].
  intros [H _]; discriminate.
Qed.

Lemma if3_assign_nil (c1 c2 c3 : bool) (k v v' v'' : jsstring) (e : object) :
  (if c1 then assign k v e
   else if c2 then assign k v' e
        else if c3 then assign k v'' e else e) = []
  <-> c1 = false /\ c2 = false /\ c3 = false /\ e = [].
Proof.
  destruct c1; [|rewrite if2_assign_nil; tauto].
  split; [intros H; apply assign_not_nil in H; contradiction|].
  intros [H _]; discriminate.
Qed.

Lemma email_errors_nil (c1 c2 : bool) (k v v' : jsstring) :
  (if c1 then [(k, v)] else if c2 then [(k, v')] else []) = ([] : object)
  <-> c1 = false /\ c2 = false.
Proof. destruct c1, c2; split; try tauto; try discriminate; intuition discriminate. Qed.

(** A text the e-mail pattern accepts is not blank. *)
Lemma accepted_email_not_blank (s : jsstring) :
  Regex.test Regex.email_pattern s = true -> truthy (trim s) = true.
Proof.
  intros H. destruct (truthy (trim s)) eqn:T; [reflexivity|].
  apply truthy_trim in T. apply email_pattern_accepts in H.
  destruct H as (a & b & c & -> & [Na Fa] & _).
  destruct a as [|x a]; [contradiction|].
  inversion T; subst. inversion Fa; subst.
  intuition congruence.
Qed.

Lemma email_checks (s : jsstring) :
  negb (truthy (trim s)) = false
  /\ negb (Regex.test Regex.email_pattern s) = false
  <-> Regex.test Regex.email_pattern s = true.
Proof.
  rewrite !negb_false_iff. split; [tauto|].
  intros H; split; [apply accepted_email_not_blank|]; exact H.
Qed.

Lemma not_blank_check (s : jsstring) :
  negb (truthy (trim s)) = false <-> ~ blank s.
Proof.
  rewrite negb_false_iff, <- truthy_trim.
  destruct (truthy (trim s)); split; congruence.
Qed.

Lemma truthy_check (s : jsstring) : negb (truthy s) = false <-> s <> [].
Proof. destruct s; cbn; split; congruence. Qed.

Lemma jsstring_eqb_check (a b : jsstring) :
  negb (jsstring_eqb a b) = false <-> b = a.
Proof.
  rewrite negb_false_iff, jsstring_eqb_eq. split; congruence.
Qed.

Section SignupChecks.

Import Signup SignupForm.

Variable thisYear : Z.
Variable getFullYear : jsstring -> option Z.

Lemma newErrors_nil (d : FormData) :
  newErrors thisYear getFullYear d = []
  <-> signup_acceptable thisYear getFullYear d.
Proof.
  unfold newErrors, signup_acceptable. cbv zeta.
  rewrite if_assign_nil, if3_assign_nil, if2_assign_nil, !if_assign_nil,
    email_errors_nil.
  rewrite jsstring_eqb_check, !not_blank_check, !truthy_check,
    !negb_false_iff, Z.ltb_ge.
  split.
  - intros (P2 & P0 & L & T & D0 & Y & LN & FN & E1 & E2).
    split; [exact E2|]. split; [exact FN|]. split; [exact LN|].
    split; [exact D0|]. split; [exact Y|]. split; [lia|].
    split; [exact T|exact P2].
  - intros (E0 & FN & LN & D0 & Y & L & T & P2).
    assert (N : password d <> [])
      by (destruct (password d); [cbn in L; lia|discriminate]).
    split; [exact P2|]. split; [exact N|]. split; [lia|].
    split; [exact T|]. split; [exact D0|]. split; [exact Y|].
    split; [exact LN|]. split; [exact FN|]. split; [|exact E0].
    apply not_blank_check, negb_false_iff, accepted_email_not_blank, E0.
Qed.

(** X12.  [handleSubmit] of the sign-up form calls [authAPI.signup] exactly
    when the e-mail is accepted by the pattern, first and last name are not
    blank, the date of birth is set and not less than 13 calendar years
    back, the password has at least 8 code units and passes the password
    pattern, and the confirmation equals the password.  Otherwise it makes
    no call, leaves the form data alone and records at least one error. *)
Theorem signup_is_sent_when_acceptable (s : State) :
  (signup_acceptable thisYear getFullYear (formData s) ->
   snd (handleSubmit thisYear getFullYear s) = Some (Api.signup (formData s))
   /\ errors (fst (handleSubmit thisYear getFullYear s)) = []
   /\ loading (fst (handleSubmit thisYear getFullYear s)) = true)
  /\ (~ signup_acceptable thisYear getFullYear (formData s) ->
      snd (handleSubmit thisYear getFullYear s) = None
      /\ formData (fst (handleSubmit thisYear getFullYear s)) = formData s
      /\ errors (fst (handleSubmit thisYear getFullYear s)) <> []
      /\ loading (fst (handleSubmit thisYear getFullYear s)) = loading s).
Proof.
  unfold handleSubmit, validateForm.
  destruct (newErrors thisYear getFullYear (formData s)) as [|x e] eqn:N.
  - apply newErrors_nil in N. cbn. split; [repeat split|].
    intros H; contradiction.
  - cbn. split.
    + intros H. apply newErrors_nil in H. congruence.
    + intros _. repeat split. discriminate.
Qed.

End SignupChecks.

Lemma sample_filled_signup_acceptable :
  signup_acceptable 2024 sample_getFullYear (Signup.formData sample_filled_signup).
Proof.
  unfold signup_acceptable. cbn.
  split; [reflexivity|].
  split; [intros H; inversion H; discriminate|].
  split; [intros H; inversion H; discriminate|].
  split; [discriminate|].
  split; [reflexivity|].
  split; [lia|]. split; reflexivity.
Qed.

Lemma signup_is_sent_when_acceptable_witness :
  signup_acceptable 2024 sample_getFullYear
                    (Signup.formData sample_filled_signup)
  /\ snd (SignupForm.handleSubmit 2024 sample_getFullYear sample_filled_signup)
     = Some (Api.signup (Signup.formData sample_filled_signup))
  /\ ~ signup_acceptable 2024 sample_getFullYear
                         (Signup.formData sample_signup)
  /\ snd (SignupForm.handleSubmit 2024 sample_getFullYear sample_signup)
     = None.
Proof.
  assert (N : ~ signup_acceptable 2024 sample_getFullYear
                                  (Signup.formData sample_signup)).
  { intros (_ & _ & _ & _ & _ & L & _). cbn in L. lia. }
  split; [exact sample_filled_signup_acceptable|].
  split.
  - exact (proj1 (proj1 (signup_is_sent_when_acceptable 2024
                           sample_getFullYear sample_filled_signup)
                        sample_filled_signup_acceptable)).
  - split; [exact N|].
    exact (proj1 (proj2 (signup_is_sent_when_acceptable 2024
                           sample_getFullYear sample_signup) N)).
Defined.

(** X13.  A picture that [handleFileChange] has accepted sits in the form
    data, but whatever the sign-up form sends does not carry it: the body
    of the call has no [profile_picture] property, and its [username] is
    [undefined]. *)
Theorem signup_sends_no_picture (thisYear : Z)
    (getFullYear : jsstring -> option Z) (s : Signup.State) (f : File)
    (body : list (jsstring * message)) :
  recognised_kind f -> size f <= 5 * 1024 * 1024 ->
  let s' := fst (Signup.handleFileChange (Some f) s) in
  snd (SignupForm.handleSubmit thisYear getFullYear s') = Some body ->
  Signup.profile_picture (Signup.formData s') = Some f
  /\ ~ In (lit "profile_picture") (map fst body)
  /\ In (lit "username", Undefined) body.
Proof.
  intros K L s' H.
  assert (P : Signup.profile_picture (Signup.formData s') = Some f).
  { destruct (signup_file_checks f s) as (_ & _ & C).
    exact (proj1 (C K L)). }
  split; [exact P|].
  unfold SignupForm.handleSubmit, SignupForm.validateForm in H.
  destruct (Nat.eqb _ 0); cbn in H; [|discriminate].
  inversion H; subst body. unfold Api.signup. cbn [map fst].
  split; [|right; left; reflexivity].
  cbn. intuition discriminate.
Qed.

Lemma signup_sends_no_picture_witness :
  Signup.profile_picture (Signup.formData sample_filled_signup)
  = Some (sample_png 1000)
  /\ ~ In (lit "profile_picture")
          (map fst (Api.signup (Signup.formData sample_filled_signup))).
Proof.
  assert (K : recognised_kind (sample_png 1000)) by (right; left; reflexivity).
  assert (L : size (sample_png 1000) <= 5 * 1024 * 1024) by (cbn; lia).
  destruct (signup_sends_no_picture 2024 sample_getFullYear
              (Signup.mkState
                 (Signup.mkFormData (lit "ann@example.org") (lit "Ann")
                    (lit "Lee") (lit "1990-05-01") (lit "Passw0rd")
                    (lit "Passw0rd") None)
                 [] false (lit "") None)
              (sample_png 1000)
              (Api.signup (Signup.formData sample_filled_signup))
              K L eq_refl) as (A & B & _).
  split; [exact A|exact B].
Defined.

Section LoginChecks.

Import Login.

Lemma login_newErrors_nil (d : FormData) :
  newErrors d = [] <-> login_acceptable d.
Proof.
  unfold newErrors, login_acceptable. cbv zeta.
  rewrite if_assign_nil, email_errors_nil, truthy_check.
  pose proof (email_checks (email d)). tauto.
Qed.

(** X14.  [handleSubmit] of the login form calls [authAPI.login], with the
    e-mail and password as typed, exactly when the e-mail is accepted by the
    pattern and the password is not empty; otherwise it makes no call and
    records at least one error. *)
Theorem login_is_sent_when_acceptable (s : State) :
  (login_acceptable (formData s) ->
   handleSubmit s = (mkState (formData s) [] true, Some (formData s)))
  /\ (~ login_acceptable (formData s) ->
      snd (handleSubmit s) = None
      /\ formData (fst (handleSubmit s)) = formData s
      /\ errors (fst (handleSubmit s)) <> []
      /\ loading (fst (handleSubmit s)) = loading s).
Proof.
  unfold handleSubmit, validateForm.
  destruct (newErrors (formData s)) as [|x e] eqn:N.
  - apply login_newErrors_nil in N. cbn. split; [reflexivity|].
    intros H; contradiction.
  - cbn. split.
    + intros H. apply login_newErrors_nil in H. congruence.
    + intros _. repeat split. discriminate.
Qed.

Lemma login_is_sent_when_acceptable_witness :
  login_acceptable (formData sample_login)
  /\ snd (handleSubmit sample_login) = Some (formData sample_login)
  /\ ~ login_acceptable (formData initial)
  /\ snd (handleSubmit initial) = None.
Proof.
  assert (A : login_acceptable (formData sample_login))
    by (split; [reflexivity|discriminate]).
  assert (N : ~ login_acceptable (formData initial))
    by (intros [H _]; discriminate H).
  split; [exact A|]. split.
  - exact (f_equal snd
             (proj1 (login_is_sent_when_acceptable sample_login) A)).
  - split; [exact N|].
    exact (proj1 (proj2 (login_is_sent_when_acceptable initial) N)).
Defined.

End LoginChecks.

End Forms.

(** ** The session: localStorage, the interceptors and App *)

Section Session.

Lemma jsstring_eqb_neq (a b : jsstring) : a <> b -> jsstring_eqb a b = false.
Proof.
  intros N. destruct (jsstring_eqb a b) eqn:E; [|reflexivity].
  apply jsstring_eqb_eq in E. contradiction.
Qed.

Lemma jsstring_eqb_refl (a : jsstring) : jsstring_eqb a a = true.
Proof. apply jsstring_eqb_eq. reflexivity. Qed.

Lemma getItem_setItem (k v : jsstring) (ls : object) :
  getItem k (setItem k v ls) = Some v.
Proof. apply get_assign. Qed.

Lemma getItem_setItem_other (k k' v : jsstring) (ls : object) :
  k <> k' -> getItem k (setItem k' v ls) = getItem k ls.
Proof.
  unfold getItem, setItem. intros N.
  induction ls as [|[k0 v0] ls IH]; cbn.
  - rewrite (jsstring_eqb_neq _ _ N). reflexivity.
  - destruct (jsstring_eqb k' k0) eqn:E; cbn.
    + apply jsstring_eqb_eq in E. subst k0.
      rewrite (jsstring_eqb_neq _ _ N). reflexivity.
    + destruct (jsstring_eqb k k0); [reflexivity|exact IH].
Qed.

Lemma getItem_removeItem (k : jsstring) (ls : object) :
  getItem k (removeItem k ls) = None.
Proof.
  unfold getItem, removeItem. induction ls as [|[k0 v0] ls IH]; cbn; auto.
  destruct (jsstring_eqb k k0) eqn:E; cbn; [exact IH|].
  rewrite E. exact IH.
Qed.

Lemma getItem_removeItem_other (k k' : jsstring) (ls : object) :
  k <> k' -> getItem k (removeItem k' ls) = getItem k ls.
Proof.
  unfold getItem, removeItem. intros N.
  induction ls as [|[k0 v0] ls IH]; cbn; auto.
  destruct (jsstring_eqb k' k0) eqn:E; cbn.
  - apply jsstring_eqb_eq in E. subst k0.
    rewrite (jsstring_eqb_neq _ _ N). exact IH.
  - destruct (jsstring_eqb k k0); [reflexivity|exact IH].
Qed.

Lemma request_interceptor_no_token (ls headers : object) :
  getItem (lit "access_token") ls = None ->
  Api.request_interceptor ls headers = headers.
Proof. unfold Api.request_interceptor. intros ->. reflexivity. Qed.

Lemma useEffect_no_token {User : Type} (parse : jsstring -> option User)
    (ls : object) (s : App.State User) :
  getItem (lit "access_token") ls = None -> App.useEffect parse ls s = Some s.
Proof. unfold App.useEffect. intros ->. reflexivity. Qed.

Lemma login_stores_the_session_facts {User : Type}
    (stringify : User -> jsstring) (r : Login.Response User) (ls : object)
    (s : Login.State) :
  let ls' := snd (fst (Login.handleSubmit_then stringify r ls s)) in
  getItem (lit "access_token") ls' = Some (Login.access r)
  /\ getItem (lit "user") ls' = Some (stringify (Login.user r)).
Proof.
  cbn [Login.handleSubmit_then fst snd]. split.
  - rewrite !getItem_setItem_other by discriminate. apply getItem_setItem.
  - apply getItem_setItem.
Qed.

(** X15.  After a successful login the storage holds the access token, the
    refresh token and the stringified user under their three keys, every
    other key is as before, and [onLoginSuccess] gets the user of the
    reply.  From then on the request interceptor sends
    [Authorization: Bearer <access token>], unless the token is the empty
    string, in which case it adds nothing. *)
Theorem login_stores_the_session {User : Type}
    (stringify : User -> jsstring) (r : Login.Response User) (ls : object)
    (s : Login.State) (headers : object) :
  let out := Login.handleSubmit_then stringify r ls s in
  let ls' := snd (fst out) in
  getItem (lit "access_token") ls' = Some (Login.access r)
  /\ getItem (lit "refresh_token") ls' = Some (Login.refresh r)
  /\ getItem (lit "user") ls' = Some (stringify (Login.user r))
  /\ (forall k, ~ session_key k -> getItem k ls' = getItem k ls)
  /\ snd out = Login.user r
  /\ Login.loading (fst (fst out)) = false
  /\ (Login.access r <> [] ->
      get (lit "Authorization") (Api.request_interceptor ls' headers)
      = Some (lit "Bearer " ++ Login.access r))
  /\ (Login.access r = [] -> Api.request_interceptor ls' headers = headers).
Proof.
  intros out ls'. subst ls' out. cbn [Login.handleSubmit_then fst snd].
  assert (A : getItem (lit "access_token")
                (setItem (lit "user") (stringify (Login.user r))
                   (setItem (lit "refresh_token") (Login.refresh r)
                      (setItem (lit "access_token") (Login.access r) ls)))
              = Some (Login.access r)).
  { rewrite !getItem_setItem_other by discriminate. apply getItem_setItem. }
  split; [exact A|].
  split; [rewrite getItem_setItem_other by discriminate;
          apply getItem_setItem|].
  split; [apply getItem_setItem|].
  split.
  { intros k N. unfold session_key in N.
    rewrite !getItem_setItem_other by tauto. reflexivity. }
  split; [reflexivity|]. split; [reflexivity|].
  unfold Api.request_interceptor. rewrite A.
  split.
  - intros N. destruct (Login.access r) as [|c t]; [contradiction|].
    cbn [truthy]. apply get_assign.
  - intros ->. reflexivity.
Qed.

Lemma login_stores_the_session_witness :
  Login.access sample_response <> []
  /\ get (lit "Authorization")
         (Api.request_interceptor
            (snd (fst (Login.handleSubmit_then sample_stringify
                         sample_response [] sample_login)))
            [(lit "Content-Type", lit "application/json")])
     = Some (lit "Bearer tok-a").
Proof.
  assert (N : Login.access sample_response <> []) by discriminate.
  split; [exact N|].
  destruct (login_stores_the_session sample_stringify sample_response []
              sample_login [(lit "Content-Type", lit "application/json")])
    as (_ & _ & _ & _ & _ & _ & H & _).
  exact (H N).
Defined.

(** X16.  A reply with status 401 makes the response interceptor drop the
    two tokens and send the window to "/login"; every other key, the
    stored user among them, stays.  Afterwards requests go out without an
    [Authorization] header and the mount effect of [App] does not log the
    user in.  A failure with any other status, or with no reply at all,
    leaves the storage alone. *)
Theorem unauthorized_reply_ends_the_session {User : Type}
    (parse : jsstring -> option User) (ls headers : object)
    (s : App.State User) :
  let out := Api.response_error_interceptor (Some 401) ls in
  getItem (lit "access_token") (fst out) = None
  /\ getItem (lit "refresh_token") (fst out) = None
  /\ (forall k, k <> lit "access_token" -> k <> lit "refresh_token" ->
                getItem k (fst out) = getItem k ls)
  /\ snd out = Some (lit "/login")
  /\ Api.request_interceptor (fst out) headers = headers
  /\ App.useEffect parse (fst out) s = Some s
  /\ (forall status, status <> Some 401 ->
                     Api.response_error_interceptor status ls = (ls, None)).
Proof.
  intros out. subst out. cbn [Api.response_error_interceptor fst snd].
  assert (A : getItem (lit "access_token")
                (removeItem (lit "refresh_token")
                   (removeItem (lit "access_token") ls)) = None).
  { rewrite getItem_removeItem_other by discriminate.
    apply getItem_removeItem. }
  split; [exact A|].
  split; [apply getItem_removeItem|].
  split.
  { intros k N1 N2. rewrite !getItem_removeItem_other by assumption.
    reflexivity. }
  split; [reflexivity|].
  split; [apply request_interceptor_no_token, A|].
  split; [apply useEffect_no_token, A|].
  intros [z|] N; [|reflexivity]. unfold Api.response_error_interceptor.
  destruct (Z.eq_dec z 401) as [->|D]; [congruence|].
  destruct z as [|p|p]; try reflexivity.
  repeat (destruct p as [p|p|]; try reflexivity); congruence.
Qed.

Lemma unauthorized_reply_ends_the_session_witness :
  Api.response_error_interceptor (Some 500) [(lit "access_token", lit "t")]
  = ([(lit "access_token", lit "t")], None).
Proof.
  destruct (unauthorized_reply_ends_the_session sample_parse
              [(lit "access_token", lit "t")] [] App.initial)
    as (_ & _ & _ & _ & _ & _ & H).
  apply H. discriminate.
Defined.

(** X17.  Logging out removes the two tokens and the stored user, keeps
    every other key, and shows the login screen with no user; afterwards
    requests carry no [Authorization] header and mounting [App] again stays
    logged out. *)
Theorem logout_ends_the_session {User : Type}
    (parse : jsstring -> option User) (ls headers : object)
    (s : App.State User) :
  let out := App.handleLogout ls s in
  (forall k, session_key k -> getItem k (snd out) = None)
  /\ (forall k, ~ session_key k -> getItem k (snd out) = getItem k ls)
  /\ fst out = App.initial
  /\ App.render (fst out) = App.LoginScreen
  /\ Api.request_interceptor (snd out) headers = headers
  /\ App.useEffect parse (snd out) App.initial = Some App.initial.
Proof.
  intros out. subst out. cbn [App.handleLogout fst snd].
  assert (A : forall k, session_key k ->
                        getItem k
                          (removeItem (lit "user")
                             (removeItem (lit "refresh_token")
                                (removeItem (lit "access_token") ls)))
                        = None).
  { intros k [ -> | [ -> | -> ] ].
    - rewrite !getItem_removeItem_other by discriminate.
      apply getItem_removeItem.
    - rewrite getItem_removeItem_other by discriminate.
      apply getItem_removeItem.
    - apply getItem_removeItem. }
  split; [exact A|].
  split.
  { intros k N. unfold session_key in N.
    rewrite !getItem_removeItem_other by tauto. reflexivity. }
  split; [reflexivity|]. split; [reflexivity|].
  split; [apply request_interceptor_no_token, A; left; reflexivity|].
  apply useEffect_no_token, A; left; reflexivity.
Qed.

Lemma logout_ends_the_session_witness :
  session_key (lit "user")
  /\ getItem (lit "user")
       (snd (App.handleLogout
               [(lit "user", lit "x"); (lit "theme", lit "dark")]
               (App.handleLoginSuccess (lit "Ann") App.initial)))
     = None.
Proof.
  assert (K : session_key (lit "user")) by (right; right; reflexivity).
  split; [exact K|].
  destruct (logout_ends_the_session sample_parse
              [(lit "user", lit "x"); (lit "theme", lit "dark")] []
              (App.handleLoginSuccess (lit "Ann") App.initial))
    as (H & _).
  exact (H _ K).
Defined.

(** X18.  After a successful login with a non-empty access token, mounting
    [App] afresh on the storage the login left (a page reload) logs the
    user in again with the same user value, provided [JSON.parse] gives
    back what [JSON.stringify] was given and the stringified user is not
    the empty string. *)
Theorem reload_restores_the_login {User : Type}
    (stringify : User -> jsstring) (parse : jsstring -> option User)
    (r : Login.Response User) (ls : object) (s : Login.State) :
  parse (stringify (Login.user r)) = Some (Login.user r) ->
  stringify (Login.user r) <> [] ->
  Login.access r <> [] ->
  let ls' := snd (fst (Login.handleSubmit_then stringify r ls s)) in
  App.useEffect parse ls' App.initial
  = Some (App.mkState (lit "login") true (Some (Login.user r)))
  /\ (forall s', App.useEffect parse ls' App.initial = Some s' ->
                 App.render s' = App.DashboardScreen (Some (Login.user r))).
Proof.
  intros P N A ls'.
  destruct (login_stores_the_session_facts stringify r ls s) as (G1 & G3).
  fold ls' in G1, G3.
  assert (E : App.useEffect parse ls' App.initial
              = Some (App.mkState (lit "login") true (Some (Login.user r)))).
  { unfold App.useEffect. rewrite G1, G3, P.
    destruct (Login.access r); [contradiction|].
    destruct (stringify (Login.user r)); [contradiction|]. reflexivity. }
  split; [exact E|]. intros s' H. rewrite E in H. inversion H. reflexivity.
Qed.

Lemma reload_restores_the_login_witness :
  sample_parse (sample_stringify (Login.user sample_response))
  = Some (Login.user sample_response)
  /\ App.useEffect sample_parse
       (snd (fst (Login.handleSubmit_then sample_stringify sample_response
                    [] sample_login)))
       App.initial
     = Some (App.mkState (lit "login") true (Some (lit "Ann"))).
Proof.
  split; [reflexivity|].
  apply (reload_restores_the_login sample_stringify sample_parse
           sample_response [] sample_login);
    [reflexivity|discriminate|discriminate].
Defined.

Lemma app_step_well_formed {User : Type} (sl : App.State User * object)
    (e : App.Event User) :
  app_well_formed (fst sl) -> app_well_formed (fst (App.step sl e)).
Proof.
  destruct sl as [s ls]. unfold app_well_formed. cbn [fst].
  intros [F T]. destruct e; cbn.
  - split; [discriminate|]. intros _; discriminate.
  - split.
    + intros H. destruct (F H) as [U _]. split; [exact U|left; reflexivity].
    + exact T.
  - split; [|discriminate]. intros _. split; [reflexivity|left; reflexivity].
  - split.
    + intros H. destruct (F H) as [U _]. split; [exact U|right; reflexivity].
    + exact T.
  - split.
    + intros H. destruct (F H) as [U _]. split; [exact U|left; reflexivity].
    + exact T.
Qed.

(** X19.  Starting from what the mount effect makes of the stored session,
    whatever sequence of logins, sign-ups, logouts and link clicks follows,
    [App] is logged in exactly when it holds a user, and while logged out
    its page is "login" or "signup": it shows the login form for the first
    and the sign-up form for the second, never the sign-up form for a
    stale page name. *)
Theorem app_state_hangs_together {User : Type}
    (parse : jsstring -> option User) (ls : object) (s0 : App.State User)
    (es : list (App.Event User)) :
  App.useEffect parse ls App.initial = Some s0 ->
  let s := fst (fold_left App.step es (s0, ls)) in
  app_well_formed s
  /\ (App.render s = App.LoginScreen
      <-> App.isAuthenticated s = false /\ App.currentPage s = lit "login")
  /\ (App.render s = App.SignupScreen
      <-> App.isAuthenticated s = false /\ App.currentPage s = lit "signup").
Proof.
  intros E s.
  assert (W0 : app_well_formed s0).
  { unfold App.useEffect in E.
    destruct (getItem (lit "access_token") ls) as [t|];
      [destruct (getItem (lit "user") ls) as [u|]|];
      try (inversion E; subst; split;
           [intros _; split; [reflexivity|left; reflexivity]|discriminate]).
    destruct (truthy t && truthy u);
      [destruct (parse u); inversion E; subst|inversion E; subst].
    - split; [discriminate|]. intros _; discriminate.
    - split; [intros _; split; [reflexivity|left; reflexivity]|discriminate]. }
  assert (W : app_well_formed s).
  { assert (G : forall sl : App.State User * object,
               app_well_formed (fst sl) ->
               app_well_formed (fst (fold_left App.step es sl))).
    { induction es as [|e es IH]; intros sl H; cbn [fold_left]; [exact H|].
      apply IH, app_step_well_formed, H. }
    apply G. exact W0. }
  split; [exact W|].
  destruct W as [F _]. unfold App.render.
  destruct (App.isAuthenticated s) eqn:A; cbn.
  - split; split; intros H; try discriminate; destruct H; discriminate.
  - destruct (F eq_refl) as [_ [P|P]]; rewrite P; cbn;
      split; split; intros H; try discriminate; try tauto;
      destruct H as [_ H]; discriminate.
Qed.

Lemma app_state_hangs_together_witness :
  App.useEffect sample_parse [] App.initial = Some App.initial
  /\ app_well_formed
       (fst (fold_left App.step
               [App.ToSignup; App.SignedUp; App.LoggedIn (lit "Ann");
                App.LoggedOut]
               (App.initial, []))).
Proof.
  split; [reflexivity|].
  exact (proj1 (app_state_hangs_together sample_parse [] App.initial
                  [App.ToSignup; App.SignedUp; App.LoggedIn (lit "Ann");
                   App.LoggedOut] eq_refl)).
Defined.

End Session.

(** ** Saving the profile *)

Section ProfileSave.

Import Profile ProfileEdit.

Lemma append_text_keys (k v : jsstring) (body : list (jsstring * Api.part))
    (x : jsstring * Api.part) :
  In x (Api.append_text k v body)
  <-> In x body \/ (x = (k, Api.text_part v) /\ v <> []).
Proof.
  unfold Api.append_text. destruct v as [|c v]; cbn [truthy].
  - intuition congruence.
  - rewrite in_app_iff. cbn. intuition (congruence || discriminate).
Qed.

Lemma updateProfile_parts (d : EditData) (x : jsstring * Api.part) :
  In x (Api.updateProfile d)
  <-> (x = (lit "first_name", Api.text_part (first_name d))
       /\ first_name d <> [])
      \/ (x = (lit "last_name", Api.text_part (last_name d))
          /\ last_name d <> [])
      \/ (x = (lit "date_of_birth", Api.text_part (date_of_birth d))
          /\ date_of_birth d <> [])
      \/ (x = (lit "bio", Api.text_part (bio d)) /\ bio d <> [])
      \/ (exists f, x = (lit "profile_picture", Api.file_part f)
                    /\ profile_picture d = Some f).
Proof.
  unfold Api.updateProfile. cbv zeta.
  destruct (profile_picture d) as [f|].
  - rewrite in_app_iff, !append_text_keys. cbn [In].
    split.
    + intros [[[[[[]|H]|H]|H]|H]|[H|[]]]; auto 6.
      do 4 right. exists f. auto.
    + intros [H|[H|[H|[H|(f0 & H & E)]]]]; auto 7.
      inversion E; subst. right. left. reflexivity.
  - rewrite !append_text_keys. cbn [In].
    split.
    + intros [[[[[]|H]|H]|H]|H]; auto 6.
    + intros [H|[H|[H|[H|(f0 & H & E)]]]]; auto 7. discriminate.
Qed.

(** X20.  The body [handleSaveProfile] sends holds a text field only when
    the field is not empty, and each field under its own name; so a field
    the user has emptied is left out of the request instead of being sent
    as empty, and the picture is sent only when one was picked. *)
Theorem emptied_field_is_not_sent (s : State) :
  (forall k v, In (k, Api.text_part v) (snd (handleSaveProfile s)) -> v <> [])
  /\ (forall x,
        ~ In (field_name x)
             (map fst (snd (handleSaveProfile (handleInputChange x (lit "") s)))))
  /\ (In (lit "profile_picture") (map fst (snd (handleSaveProfile s)))
      <-> profile_picture (editData s) <> None).
Proof.
  cbn [handleSaveProfile snd]. split; [|split].
  - intros k v H. apply updateProfile_parts in H.
    destruct H as [[E N]|[[E N]|[[E N]|[[E N]|(f & E & _)]]]];
      inversion E; subst; assumption.
  - intros x H. apply in_map_iff in H. destruct H as ([k p] & K & H).
    cbn in K. subst k. apply updateProfile_parts in H.
    destruct x; cbn in H;
      destruct H as [[E N]|[[E N]|[[E N]|[[E N]|(f & E & _)]]]];
      try discriminate E; apply N; reflexivity.
  - split.
    + intros H. apply in_map_iff in H. destruct H as ([k p] & K & H).
      cbn in K. subst k. apply updateProfile_parts in H.
      destruct H as [[E N]|[[E N]|[[E N]|[[E N]|(f & E & P)]]]];
        try discriminate E. congruence.
    + intros N. destruct (profile_picture (editData s)) as [f|] eqn:P;
        [|contradiction].
      apply in_map_iff. exists (lit "profile_picture", Api.file_part f).
      split; [reflexivity|]. apply updateProfile_parts.
      do 4 right. exists f. split; [reflexivity|exact P].
Qed.

Lemma emptied_field_is_not_sent_witness :
  In (lit "bio") (map fst (snd (handleSaveProfile sample_profile_edit)))
  /\ ~ In (lit "bio")
          (map fst (snd (handleSaveProfile
                           (handleInputChange f_bio (lit "")
                                              sample_profile_edit)))).
Proof.
  split; [do 3 right; left; reflexivity|].
  exact (proj1 (proj2 (emptied_field_is_not_sent sample_profile_edit)) f_bio).
Defined.

End ProfileSave.

(** ** The properties above at the sample page *)

Section SamplePage.

Import Dashboard Page.

Lemma deleted_post_is_gone_witness :
  In sample_post (posts (dashboard loaded))
  /\ id sample_post = 7
  /\ ~ In sample_post
        (posts (dashboard
                  (perform viewer loaded
                     (op_handleDeletePost 7 true (Resolved no_data))))).
Proof.
  split; [left; reflexivity|]. split; [reflexivity|].
  intros H.
  exact (proj1 (deleted_post_is_gone viewer loaded 7 no_data no_data)
               sample_post H eq_refl).
Defined.

Lemma fetch_replaces_or_retains_witness :
  let w := perform viewer initial
             (op_fetchPosts (Resolved (posts_data [sample_post; other_post])))
  in
  In sample_post (userPosts (dashboard w))
  /\ author sample_post = viewer.
Proof.
  assert (H : In sample_post
                (userPosts
                   (dashboard
                      (perform viewer initial
                         (op_fetchPosts
                            (Resolved (posts_data [sample_post; other_post])))))))
    by (left; reflexivity).
  split; [exact H|].
  destruct (proj2 (fetch_replaces_or_retains viewer initial)
                  [sample_post; other_post]) as (_ & _ & K & _).
  exact (proj2 (K sample_post H)).
Defined.

Lemma delete_button_on_own_posts_witness :
  let w := perform_all viewer initial
             [op_fetchPosts (Resolved (posts_data [sample_post; other_post]))]
  in
  In (mount sample_post) (profileCards w)
  /\ isAuthor viewer (post (mount sample_post)) = true.
Proof.
  assert (H : In (mount sample_post)
                (profileCards
                   (perform_all viewer initial
                      [op_fetchPosts
                         (Resolved (posts_data [sample_post; other_post]))])))
    by (left; reflexivity).
  split; [exact H|].
  exact (proj1 (delete_button_on_own_posts viewer
                  [op_fetchPosts
                     (Resolved (posts_data [sample_post; other_post]))])
               (mount sample_post) H).
Defined.

End SamplePage.

(** ** Forms: typing, and what follows a reply *)

Section FormReplies.

Lemma get_assign_other (k k' v : jsstring) (o : object) :
  k <> k' -> get k (assign k' v o) = get k o.
Proof. apply getItem_setItem_other. Qed.

Lemma signup_sent_facts (thisYear : Z) (getFullYear : jsstring -> option Z)
    (s : Signup.State) :
  signup_acceptable thisYear getFullYear (Signup.formData s) ->
  snd (SignupForm.handleSubmit thisYear getFullYear s)
  = Some (Api.signup (Signup.formData s)).
Proof.
  intros A. unfold SignupForm.handleSubmit, SignupForm.validateForm.
  rewrite (proj2 (newErrors_nil thisYear getFullYear (Signup.formData s)) A).
  reflexivity.
Qed.

Lemma signup_is_sent_when_acceptable_facts (thisYear : Z)
    (getFullYear : jsstring -> option Z) (s : Signup.State) :
  signup_acceptable thisYear getFullYear (Signup.formData s) ->
  Signup.formData (fst (SignupForm.handleSubmit thisYear getFullYear s))
  = Signup.formData s
  /\ Signup.loading (fst (SignupForm.handleSubmit thisYear getFullYear s))
     = true.
Proof.
  intros A. unfold SignupForm.handleSubmit, SignupForm.validateForm.
  rewrite (proj2 (newErrors_nil thisYear getFullYear (Signup.formData s)) A).
  split; reflexivity.
Qed.

Lemma signup_refused_facts (thisYear : Z) (getFullYear : jsstring -> option Z)
    (s : Signup.State) :
  ~ signup_acceptable thisYear getFullYear (Signup.formData s) ->
  snd (SignupForm.handleSubmit thisYear getFullYear s) = None.
Proof.
  intros N. unfold SignupForm.handleSubmit, SignupForm.validateForm.
  destruct (SignupForm.newErrors thisYear getFullYear (Signup.formData s))
    eqn:E; [|reflexivity].
  apply newErrors_nil in E. contradiction.
Qed.

(** X21.  When [updateProfile] succeeds and the [getProfile] that follows
    fails, the profile form has left edit mode and shows the success
    message and an error at once; when [updateProfile] itself fails, the
    form stays in edit mode with the error and no success message is set.
    In both cases the edited data are kept and loading has ended. *)
Theorem profile_save_failures (s : Profile.State) (errors : option object) :
  let shown := match errors with
               | Some o => o
               | None => [(lit "submit", lit "Failed to update profile")]
               end in
  let s1 := fst (ProfileEdit.handleSaveProfile s) in
  let late := ProfileEdit.handleSaveProfile_catch errors
                (ProfileEdit.handleSaveProfile_updated s1) in
  let early := ProfileEdit.handleSaveProfile_catch errors s1 in
  (Profile.isEditing late = false
   /\ Profile.successMessage late = lit "Profile updated successfully!"
   /\ Profile.errors late = shown
   /\ Profile.loading late = false
   /\ Profile.editData late = Profile.editData s)
  /\ (Profile.isEditing early = Profile.isEditing s
      /\ Profile.successMessage early = Profile.successMessage s
      /\ Profile.errors early = shown
      /\ Profile.loading early = false
      /\ Profile.editData early = Profile.editData s)
  /\ Profile.errors s1 = [] /\ Profile.loading s1 = true.
Proof. destruct errors; repeat split. Qed.

(** X22.  Typing into a field of the sign-up or login form changes that
    field of the form data only, leaves the field without a visible error
    (its message, if it had one, becomes the empty string) and leaves the
    message of every other key, the [submit] error included, as it was. *)
Theorem typing_clears_only_its_own_error :
  (forall (x : SignupForm.Field) (value : jsstring) (s : Signup.State),
      let s' := SignupForm.handleInputChange x value s in
      Signup.formData s' = SignupForm.with_field x value (Signup.formData s)
      /\ Signup.profile_picture (Signup.formData s')
         = Signup.profile_picture (Signup.formData s)
      /\ truthy_opt (get (SignupForm.field_name x) (Signup.errors s')) = false
      /\ (forall k, k <> SignupForm.field_name x ->
                    get k (Signup.errors s') = get k (Signup.errors s)))
  /\ (forall (x : Login.Field) (value : jsstring) (s : Login.State),
        let s' := Login.handleInputChange x value s in
        Login.formData s'
        = match x with
          | Login.f_email =>
              Login.mkFormData value (Login.password (Login.formData s))
          | Login.f_password =>
              Login.mkFormData (Login.email (Login.formData s)) value
          end
        /\ truthy_opt (get (Login.field_name x) (Login.errors s')) = false
        /\ (forall k, k <> Login.field_name x ->
                      get k (Login.errors s') = get k (Login.errors s))).
Proof.
  split.
  - intros x value s s'. subst s'. unfold SignupForm.handleInputChange.
    destruct (truthy_opt (get (SignupForm.field_name x) (Signup.errors s)))
      eqn:T; cbn.
    + split; [reflexivity|]. split; [destruct x; reflexivity|].
      split; [rewrite get_assign; reflexivity|].
      intros k N. apply get_assign_other, N.
    + split; [reflexivity|]. split; [destruct x; reflexivity|].
      split; [exact T|]. reflexivity.
  - intros x value s s'. subst s'. unfold Login.handleInputChange.
    destruct (truthy_opt (get (Login.field_name x) (Login.errors s)))
      eqn:T; cbn.
    + split; [reflexivity|].
      split; [rewrite get_assign; reflexivity|].
      intros k N. apply get_assign_other, N.
    + split; [reflexivity|]. split; [exact T|]. reflexivity.
Qed.

Lemma typing_clears_only_its_own_error_witness :
  let s := Login.mkState (Login.mkFormData (lit "") (lit "pw"))
             [(lit "email", lit "Email is required");
              (lit "submit", lit "Login failed. Please check your credentials.")]
             false in
  lit "submit" <> Login.field_name Login.f_email
  /\ get (lit "submit")
         (Login.errors (Login.handleInputChange Login.f_email (lit "a") s))
     = Some (lit "Login failed. Please check your credentials.").
Proof.
  split; [discriminate|].
  destruct (proj2 typing_clears_only_its_own_error Login.f_email (lit "a")
              (Login.mkState (Login.mkFormData (lit "") (lit "pw"))
                 [(lit "email", lit "Email is required");
                  (lit "submit",
                   lit "Login failed. Please check your credentials.")]
                 false)) as (_ & _ & H).
  apply (H (lit "submit")). discriminate.
Defined.

(** X23.  After a sign-up that the server accepted the form is empty again
    (fields and picture), the preview is gone, and submitting once more
    makes no call.  After a sign-up that failed the form data are kept and
    loading has ended, and submitting once more sends the same body
    again. *)
Theorem signup_reply_resets_or_keeps_the_form (thisYear : Z)
    (getFullYear : jsstring -> option Z) (s : Signup.State) :
  signup_acceptable thisYear getFullYear (Signup.formData s) ->
  let submit := SignupForm.handleSubmit thisYear getFullYear in
  let s1 := fst (submit s) in
  (let s2 := SignupForm.handleSubmit_then s1 in
   Signup.formData s2 = SignupForm.empty_form
   /\ Signup.previewImage s2 = None
   /\ Signup.loading s2 = false
   /\ snd (submit s2) = None)
  /\ (forall errors message,
        let s2 := SignupForm.handleSubmit_catch errors message s1 in
        Signup.formData s2 = Signup.formData s
        /\ Signup.loading s2 = false
        /\ snd (submit s2) = Some (Api.signup (Signup.formData s))).
Proof.
  intros A submit s1.
  destruct (signup_is_sent_when_acceptable_facts thisYear getFullYear s A)
    as (F1 & L1).
  fold submit in F1, L1. fold s1 in F1, L1.
  split.
  - cbn zeta. split; [reflexivity|]. split; [reflexivity|].
    split; [reflexivity|].
    apply signup_refused_facts.
    intros (E & _). cbn in E. discriminate E.
  - intros errors message s2.
    assert (F2 : Signup.formData s2 = Signup.formData s)
      by (subst s2; cbn; exact F1).
    split; [exact F2|]. split; [reflexivity|].
    rewrite <- F2. apply signup_sent_facts. rewrite F2. exact A.
Qed.

Lemma signup_reply_resets_or_keeps_the_form_witness :
  signup_acceptable 2024 sample_getFullYear
                    (Signup.formData sample_filled_signup)
  /\ Signup.formData
       (SignupForm.handleSubmit_then
          (fst (SignupForm.handleSubmit 2024 sample_getFullYear
                  sample_filled_signup)))
     = SignupForm.empty_form.
Proof.
  split; [exact sample_filled_signup_acceptable|].
  exact (proj1 (proj1 (signup_reply_resets_or_keeps_the_form 2024
                         sample_getFullYear sample_filled_signup
                         sample_filled_signup_acceptable))).
Defined.

(** X24.  A failed login keeps the e-mail and password as typed, ends
    loading and shows the message of the reply, or "Login failed. Please
    check your credentials." when the reply has no message or an empty one;
    submitting again sends the same credentials. *)
Theorem failed_login_can_be_retried (s : Login.State)
    (message : option jsstring) :
  login_acceptable (Login.formData s) ->
  let s1 := fst (Login.handleSubmit s) in
  let s2 := Login.handleSubmit_catch message s1 in
  Login.formData s2 = Login.formData s
  /\ Login.loading s2 = false
  /\ get (lit "submit") (Login.errors s2)
     = Some (match message with
             | Some (c :: m) => c :: m
             | _ => lit "Login failed. Please check your credentials."
             end)
  /\ snd (Login.handleSubmit s2) = Some (Login.formData s).
Proof.
  intros A s1 s2.
  assert (E1 : Login.handleSubmit s
               = (Login.mkState (Login.formData s) [] true,
                  Some (Login.formData s))).
  { unfold Login.handleSubmit, Login.validateForm.
    rewrite (proj2 (login_newErrors_nil (Login.formData s)) A).
    reflexivity. }
  assert (F2 : Login.formData s2 = Login.formData s)
    by (subst s2 s1; rewrite E1; reflexivity).
  split; [exact F2|]. split; [reflexivity|]. split.
  - subst s2. unfold Login.handleSubmit_catch.
    destruct message as [[|c m]|]; reflexivity.
  - unfold Login.handleSubmit, Login.validateForm. rewrite F2.
    rewrite (proj2 (login_newErrors_nil (Login.formData s)) A).
    reflexivity.
Qed.

Lemma failed_login_can_be_retried_witness :
  login_acceptable (Login.formData sample_login)
  /\ get (lit "submit")
         (Login.errors
            (Login.handleSubmit_catch (Some (lit ""))
               (fst (Login.handleSubmit sample_login))))
     = Some (lit "Login failed. Please check your credentials.").
Proof.
  assert (A : login_acceptable (Login.formData sample_login))
    by (split; [reflexivity|discriminate]).
  split; [exact A|].
  exact (proj1 (proj2 (proj2 (failed_login_can_be_retried sample_login
                                (Some (lit "")) A)))).
Defined.

End FormReplies.

(** ** The preview of a removed image *)

Section Preview.

Import Dashboard Page.

(** X25.  The remove button is on the page while a preview is shown.  When
    a further image is picked and accepted, the button is clicked before
    the preview of that image has been read, and the read then finishes,
    the draft has no image (the next create sends none) while the preview
    shows the image that was removed. *)
Theorem removed_image_can_reappear_in_preview (user_id : Z) (w : World)
    (f : File) (url : jsstring) :
  previewImage (dashboard w) <> None ->
  recognised_kind f -> size f <= 10 * 1024 * 1024 ->
  let k := List.length (reading w) in
  let w' := run user_id w
                [PickImage (Some f); RemoveImage; LoadEnd k (Some url)] in
  newPost_image (newPost (dashboard w')) = None
  /\ previewImage (dashboard w') = Some url
  /\ Api.createPost (newPost (dashboard w'))
     = [(lit "description",
         Api.text_part (newPost_description (newPost (dashboard w))))]
  /\ reading w' = reading w.
Proof.
  intros _ K L k w'.
  assert (E1 : step user_id w (PickImage (Some f))
               = setReading (reading w ++ [f])
                   (setDashboard
                      (setNewPost
                         (fun prev =>
                            mkNewPost (newPost_description prev) (Some f))
                         (dashboard w)) w)).
  { cbn [step]. unfold handlePostImageChange.
    apply includes_validTypes in K. rewrite K. cbn [negb].
    destruct (Z.gtb_spec (size f) (10 * 1024 * 1024)); [lia|]. reflexivity. }
  subst w'. unfold run. cbn [fold_left]. rewrite E1.
  cbn [step reading setReading setDashboard dashboard].
  subst k. rewrite nth_error_snoc, remove_nth_snoc. repeat split.
Qed.

Lemma removed_image_can_reappear_in_preview_witness :
  let w := run viewer loaded
             [PickImage (Some (sample_png 2000));
              LoadEnd 0 (Some (lit "data:image/png;base64,BBBB"))] in
  previewImage (dashboard w) <> None
  /\ recognised_kind (sample_png 1000)
  /\ previewImage
       (dashboard
          (run viewer w
             [PickImage (Some (sample_png 1000)); RemoveImage;
              LoadEnd 0 (Some (lit "data:image/png;base64,AAAA"))]))
     = Some (lit "data:image/png;base64,AAAA").
Proof.
  assert (K : recognised_kind (sample_png 1000)) by (right; left; reflexivity).
  assert (P : previewImage
                (dashboard
                   (run viewer loaded
                      [PickImage (Some (sample_png 2000));
                       LoadEnd 0 (Some (lit "data:image/png;base64,BBBB"))]))
              <> None) by discriminate.
  split; [exact P|]. split; [exact K|].
  apply (removed_image_can_reappear_in_preview viewer
           (run viewer loaded
              [PickImage (Some (sample_png 2000));
               LoadEnd 0 (Some (lit "data:image/png;base64,BBBB"))])
           (sample_png 1000) (lit "data:image/png;base64,AAAA") P K).
  cbn; lia.
Defined.

End Preview.
